(** * comparison_utils: improvement percentages, comparison tables and the
      styled workbook

    A shallow embedding of [comparison_utils.py].  Metric values are IEEE 754
    binary64 numbers (the [spec_float] model of the Standard Library at
    precision 53), a missing value is NaN as in pandas, Python exceptions are
    an explicit error result, and the worksheet cells are a finite map from
    (row, column) to cells. *)

From Stdlib Require Import ZArith Floats.SpecFloat Ascii DecimalString
  DecimalPos.
From stdpp Require Import gmap strings list.

Open Scope string_scope.
Open Scope Z_scope.

(** ** Binary64 numbers *)

Definition float : Type := spec_float.

Definition nan : float := S754_nan.
Definition fzero : float := S754_zero false.

(** Conversion of a Python [int] literal to a float. *)
Definition of_Z (z : Z) : float := binary_normalize 53 1024 z 0 false.

(** The float written [m / 10^d] in decimal notation, for instance
    [of_decimal 6 1] for the literal [0.6]: the correctly rounded quotient of
    two exactly representable integers. *)
Definition of_decimal (m : Z) (d : nat) : float :=
  SFdiv 53 1024 (of_Z m) (of_Z (10 ^ Z.of_nat d)).

Definition fadd : float -> float -> float := SFadd 53 1024.
Definition fsub : float -> float -> float := SFsub 53 1024.
Definition fmul : float -> float -> float := SFmul 53 1024.
Definition fdiv : float -> float -> float := SFdiv 53 1024.
Definition fabs : float -> float := SFabs.
Definition feqb : float -> float -> bool := SFeqb.
Definition fltb : float -> float -> bool := SFltb.

(** [pd.isna] on a scalar float. *)
Definition pd_isna (x : float) : bool :=
  match x with
  | S754_nan => true
  | _ => false
  end.

Definition is_zero (x : float) : bool :=
  match x with
  | S754_zero _ => true
  | _ => false
  end.

(** ** Exceptions *)

(** The exceptions of the code, and [NotModelled] for a pattern written in
    regular-expression syntax that [Re] below does not cover. *)
Inductive exn : Type :=
  | ZeroDivisionError
  | KeyError (key : string)
  | ReError (pattern : string)
  | NotModelled (pattern : string).

Inductive result (A : Type) : Type :=
  | Ok (a : A)
  | Raise (e : exn).

Arguments Ok {A} a.
Arguments Raise {A} e.

#[global] Instance result_ret : MRet result := fun A a => Ok a.

#[global] Instance result_bind : MBind result := fun A B f m =>
  match m with
  | Ok a => f a
  | Raise e => Raise e
  end.

#[global] Instance result_fmap : FMap result := fun A B f m =>
  match m with
  | Ok a => Ok (f a)
  | Raise e => Raise e
  end.

(** Python's [/] on floats raises on a zero divisor (numpy scalars return an
    infinity or NaN instead; the callers below never reach that case). *)
Definition py_truediv (a b : float) : result float :=
  if is_zero b then Raise ZeroDivisionError else Ok (fdiv a b).

(** ** Format specifications [.Nf] and [+.Nf] *)

Definition Z_to_string (n : Z) : string :=
  NilEmpty.string_of_uint (N.to_uint (Z.to_N n)).

(** [n / d] rounded to the nearest integer, ties to even. *)
Definition round_half_even (n d : Z) : Z :=
  let q := n / d in
  match Z.compare (2 * (n mod d)) d with
  | Lt => q
  | Gt => q + 1
  | Eq => if Z.even q then q else q + 1
  end.

(** [m * 2^e * 10^digits] rounded to an integer: the digits Python prints
    are those of the exact binary value, correctly rounded. *)
Definition scaled (m : positive) (e : Z) (digits : nat) : Z :=
  let p := 10 ^ Z.of_nat digits in
  if 0 <=? e then Z.pos m * 2 ^ e * p
  else round_half_even (Z.pos m * p) (2 ^ (- e)).

Definition drop_first (s : string) : string :=
  match s with
  | EmptyString => EmptyString
  | String _ s' => s'
  end.

Definition fixed_digits (digits : nat) (n : Z) : string :=
  let p := 10 ^ Z.of_nat digits in
  Z_to_string (n / p) +:+
  match digits with
  | O => ""
  | S _ => "." +:+ drop_first (Z_to_string (p + n mod p))
  end.

Definition sign_str (always_sign neg : bool) : string :=
  if neg then "-" else if always_sign then "+" else "".

(** [format(x, ".{digits}f")], and with [always_sign] the [+] flag. *)
Definition format_f (always_sign : bool) (digits : nat) (x : float) : string :=
  match x with
  | S754_nan => sign_str always_sign false +:+ "nan"
  | S754_infinity s => sign_str always_sign s +:+ "inf"
  | S754_zero s => sign_str always_sign s +:+ fixed_digits digits 0
  | S754_finite s m e =>
      sign_str always_sign s +:+ fixed_digits digits (scaled m e digits)
  end.

(** ** calculate_improvement *)

Definition calculate_improvement
    (baseline_val comparison_val : float) (metric : string) : result float :=
  if pd_isna baseline_val || pd_isna comparison_val then Ok nan
  else if feqb baseline_val fzero then Ok nan
  else if String.eqb metric "R2" then
    q ← py_truediv (fsub comparison_val baseline_val) (fabs baseline_val);
    Ok (fmul q (of_Z 100))
  else
    q ← py_truediv (fsub baseline_val comparison_val) baseline_val;
    Ok (fmul q (of_Z 100)).

(** ** Python strings

    A string is a sequence of characters, one [ascii] each. *)

(** [s.replace(old, new)] for literal [old]: the occurrences are replaced
    from left to right, without overlap; [skip] counts the characters of the
    occurrence being passed over. *)
Fixpoint replace_from (old new : string) (skip : nat) (s : string) : string :=
  match s with
  | EmptyString => EmptyString
  | String c s' =>
      match skip with
      | S k => replace_from old new k s'
      | O =>
          if String.prefix old s
          then new +:+ replace_from old new (String.length old - 1) s'
          else String c (replace_from old new 0 s')
      end
  end.

(** Only called with a non-empty [old] (a dash followed by a label). *)
Definition str_replace (old new s : string) : string :=
  replace_from old new 0 s.

(** [pat in s]: literal containment. *)
Fixpoint str_in (pat s : string) : bool :=
  String.prefix pat s ||
  match s with
  | EmptyString => false
  | String _ s' => str_in pat s'
  end.

(** ** Regular expressions: the fragment of Python's [re] syntax made of
    literal characters, [.], groups, [|], and the repetitions [*], [+], [?]
    (greedy or lazy), with backslash escapes of punctuation.

    [Series.str.contains(pat)] is called in the source without [regex=False],
    so it compiles [pat] with [re.compile] and keeps the elements where
    [re.search] finds a match. *)

Module Re.

Inductive regex : Type :=
  | Void
  | Eps
  | Chr (c : ascii)
  | Dot
  | Cat (r1 r2 : regex)
  | Alt (r1 r2 : regex)
  | Star (r : regex).

Fixpoint nullable (r : regex) : bool :=
  match r with
  | Void => false
  | Eps => true
  | Chr _ => false
  | Dot => false
  | Cat r1 r2 => nullable r1 && nullable r2
  | Alt r1 r2 => nullable r1 || nullable r2
  | Star _ => true
  end.

Definition cat (r1 r2 : regex) : regex :=
  match r1, r2 with
  | Void, _ => Void
  | _, Void => Void
  | Eps, _ => r2
  | _, Eps => r1
  | _, _ => Cat r1 r2
  end.

Definition alt (r1 r2 : regex) : regex :=
  match r1, r2 with
  | Void, _ => r2
  | _, Void => r1
  | _, _ => Alt r1 r2
  end.

Definition newline : ascii := ascii_of_nat 10.

(** The expressions matching what is left of a match of [r] after [c];
    [.] matches every character but the newline. *)
Fixpoint deriv (c : ascii) (r : regex) : regex :=
  match r with
  | Void => Void
  | Eps => Void
  | Chr d => if Ascii.eqb c d then Eps else Void
  | Dot => if Ascii.eqb c newline then Void else Eps
  | Cat r1 r2 =>
      alt (cat (deriv c r1) r2) (if nullable r1 then deriv c r2 else Void)
  | Alt r1 r2 => alt (deriv c r1) (deriv c r2)
  | Star r1 => cat (deriv c r1) (Star r1)
  end.

(** Some prefix of [s] matches [r]. *)
Fixpoint match_prefix (r : regex) (s : string) : bool :=
  nullable r ||
  match s with
  | EmptyString => false
  | String c s' => match_prefix (deriv c r) s'
  end.

(** [re.search]: a match starts at some position of [s]. *)
Fixpoint search (r : regex) (s : string) : bool :=
  match_prefix r s ||
  match s with
  | EmptyString => false
  | String _ s' => search r s'
  end.

(** *** Parsing, one character at a time *)

Inductive quant : Type := NoQuant | Greedy | Lazy.

(** An alternation being read: the alternatives closed by [|], the
    concatenation read since, and the last atom, which a repetition may still
    apply to. *)
Record frame : Type := {
  alts : option regex;
  seq : regex;
  last : option regex;
  qst : quant
}.

Definition empty_frame : frame :=
  {| alts := None; seq := Eps; last := None; qst := NoQuant |}.

Definition flush (f : frame) : regex :=
  match last f with
  | Some a => cat (seq f) a
  | None => seq f
  end.

Definition close (f : frame) : regex :=
  match alts f with
  | Some a => Alt a (flush f)
  | None => flush f
  end.

Definition push_atom (a : regex) (f : frame) : frame :=
  {| alts := alts f; seq := flush f; last := Some a; qst := NoQuant |}.

Definition next_alt (f : frame) : frame :=
  {| alts := Some (close f); seq := Eps; last := None; qst := NoQuant |}.

Definition set_last (a : regex) (q : quant) (f : frame) : frame :=
  {| alts := alts f; seq := seq f; last := Some a; qst := q |}.

(** The frames of the enclosing groups, whether the previous character was an
    unescaped backslash, and whether it was an opening parenthesis. *)
Record pstate : Type := {
  cur : frame;
  stack : list frame;
  esc : bool;
  opened : bool
}.

Definition with_cur (f : frame) (st : pstate) : pstate :=
  {| cur := f; stack := stack st; esc := false; opened := false |}.

Inductive perror : Type :=
  | Invalid      (* re.compile raises re.error *)
  | Unsupported. (* syntax outside the fragment *)

Definition is_alnum (c : ascii) : bool :=
  let n := nat_of_ascii c in
  ((48 <=? n) && (n <=? 57) || (65 <=? n) && (n <=? 90)
   || (97 <=? n) && (n <=? 122))%nat.

Definition step (c : ascii) (st : pstate) : perror + pstate :=
  let f := cur st in
  if esc st then
    if is_alnum c then inl Unsupported
    else inr (with_cur (push_atom (Chr c) f) st)
  else if Ascii.eqb c "\" then
    inr {| cur := f; stack := stack st; esc := true; opened := false |}
  else if Ascii.eqb c "(" then
    inr {| cur := empty_frame; stack := f :: stack st;
           esc := false; opened := true |}
  else if Ascii.eqb c ")" then
    match stack st with
    | [] => inl Invalid
    | g :: rest =>
        inr {| cur := push_atom (close f) g; stack := rest;
               esc := false; opened := false |}
    end
  else if Ascii.eqb c "|" then inr (with_cur (next_alt f) st)
  else if Ascii.eqb c "*" || Ascii.eqb c "+" then
    match last f, qst f with
    | None, _ => inl Invalid
    | Some a, NoQuant =>
        inr (with_cur
               (set_last (if Ascii.eqb c "*" then Star a else Cat a (Star a))
                         Greedy f) st)
    | Some _, Greedy => inl Unsupported
    | Some _, Lazy => inl Invalid
    end
  else if Ascii.eqb c "?" then
    if opened st then inl Unsupported
    else
      match last f, qst f with
      | None, _ => inl Invalid
      | Some a, NoQuant => inr (with_cur (set_last (Alt Eps a) Greedy f) st)
      | Some a, Greedy => inr (with_cur (set_last a Lazy f) st)
      | Some _, Lazy => inl Invalid
      end
  else if Ascii.eqb c "." then inr (with_cur (push_atom Dot f) st)
  else if Ascii.eqb c "^" || Ascii.eqb c "$" || Ascii.eqb c "["
          || Ascii.eqb c "]" || Ascii.eqb c "{" || Ascii.eqb c "}"
  then inl Unsupported
  else inr (with_cur (push_atom (Chr c) f) st).

Fixpoint run (pat : string) (st : pstate) : perror + pstate :=
  match pat with
  | EmptyString => inr st
  | String c pat' =>
      match step c st with
      | inl e => inl e
      | inr st' => run pat' st'
      end
  end.

Definition parse (pat : string) : perror + regex :=
  match run pat {| cur := empty_frame; stack := []; esc := false;
                   opened := false |} with
  | inl e => inl e
  | inr st =>
      if esc st then inl Invalid
      else match stack st with
           | [] => inr (close (cur st))
           | _ :: _ => inl Invalid
           end
  end.

(** [re.compile(pat)] on the fragment. *)
Definition compile (pat : string) : result regex :=
  match parse pat with
  | inr r => Ok r
  | inl Invalid => Raise (ReError pat)
  | inl Unsupported => Raise (NotModelled pat)
  end.

End Re.

(** What [str.contains] uses of the [re] module: [re.compile] and the
    [search] method of the compiled pattern.  The tables and the workbook are
    defined over any such engine, and their properties do not depend on which
    strings a pattern matches; [Re] is the engine the examples are evaluated
    with. *)
Class RegexEngine : Type := {
  pattern : Type;
  re_compile : string -> result pattern;
  re_search : pattern -> string -> bool
}.

#[global] Instance re_fragment : RegexEngine :=
  {| pattern := Re.regex; re_compile := Re.compile; re_search := Re.search |}.

(** ** The results table and the comparison table *)

(** One row of [results_df]: the [Model] string and the metric columns,
    read by name.  Every column asked for is present, as the callers
    guarantee; a missing value is NaN. *)
Record MetricRecord : Type := {
  Model : string;
  metric_value : string -> float
}.

(** A row of the copy of [results_df] that carries the added [ModelName]
    column. *)
Record NamedRecord : Type := {
  record : MetricRecord;
  ModelName : string
}.

(** A row of [comparison_df]. *)
Record ComparisonRow : Type := {
  row_Model : string;
  Baseline : string;
  Exogenous : string;
  EEMD : string;
  exog_imp : float;
  eemd_imp : float
}.

(** The three [str.replace] assignments of the [ModelName] column. *)
Definition add_ModelName (baseline_label exog_label eemd_label : string)
    (r : MetricRecord) : NamedRecord :=
  let name := str_replace ("-" +:+ baseline_label) "" (Model r) in
  let name := str_replace ("-" +:+ exog_label) "" name in
  let name := str_replace ("-" +:+ eemd_label) "" name in
  {| record := r; ModelName := name |}.

(** The rows whose [Model] the compiled label matches somewhere. *)
Definition scenario_partition `{RegexEngine} (re : pattern)
    (df : list NamedRecord) : list NamedRecord :=
  List.filter (fun r => re_search re (Model (record r))) df.

(** [df[df['Model'].str.contains(label)]]. *)
Definition select_contains `{RegexEngine} (label : string)
    (df : list NamedRecord) : result (list NamedRecord) :=
  re ← re_compile label;
  Ok (scenario_partition re df).

(** [Series.unique]: the distinct values in order of first appearance. *)
Fixpoint unique (l : list string) : list string :=
  match l with
  | [] => []
  | x :: l' => x :: List.filter (fun y => negb (String.eqb x y)) (unique l')
  end.

(** [vals = df[df['ModelName'] == model][metric].values] followed by
    [vals[0] if len(vals) > 0 else np.nan]. *)
Definition first_value (df : list NamedRecord) (model metric : string)
    : float :=
  match List.filter (fun r => String.eqb (ModelName r) model) df with
  | r :: _ => metric_value (record r) metric
  | [] => nan
  end.

(** The body of the loop over [model_names]. *)
Definition comparison_row (baseline_df exog_df eemd_df : list NamedRecord)
    (metric model : string) : result ComparisonRow :=
  let baseline_val := first_value baseline_df model metric in
  let exog_val := first_value exog_df model metric in
  let eemd_val := first_value eemd_df model metric in
  exog_imp ← calculate_improvement baseline_val exog_val metric;
  eemd_imp ← calculate_improvement baseline_val eemd_val metric;
  let exog_str :=
    if negb (pd_isna exog_val) then
      if negb (pd_isna exog_imp)
      then format_f false 3 exog_val +:+ " (" +:+ format_f true 1 exog_imp
           +:+ "%)"
      else format_f false 3 exog_val
    else "N/A" in
  let eemd_str :=
    if negb (pd_isna eemd_val) then
      if negb (pd_isna eemd_imp)
      then format_f false 3 eemd_val +:+ " (" +:+ format_f true 1 eemd_imp
           +:+ "%)"
      else format_f false 3 eemd_val
    else "N/A" in
  Ok {| row_Model := model;
        Baseline := if negb (pd_isna baseline_val)
                    then format_f false 3 baseline_val else "N/A";
        Exogenous := exog_str;
        EEMD := eemd_str;
        exog_imp := exog_imp;
        eemd_imp := eemd_imp |}.

Definition create_comparison_table `{RegexEngine}
    (results_df : list MetricRecord)
    (metric baseline_label exog_label eemd_label : string)
    : result (list ComparisonRow) :=
  let results_df :=
    map (add_ModelName baseline_label exog_label eemd_label) results_df in
  baseline_df ← select_contains baseline_label results_df;
  exog_df ← select_contains exog_label results_df;
  eemd_df ← select_contains eemd_label results_df;
  let model_names := unique (map ModelName baseline_df) in
  mapM (comparison_row baseline_df exog_df eemd_df metric) model_names.

(** ** Workbooks *)

Record PatternFill : Type := {
  start_color : string;
  end_color : string;
  fill_type : string
}.

Record Font : Type := {
  color : option string;
  bold : bool;
  size : option Z
}.

Record Alignment : Type := {
  horizontal : option string;
  vertical : option string
}.

(** The styles of the four sides. *)
Record Border : Type := {
  side_left : string;
  side_right : string;
  side_top : string;
  side_bottom : string
}.

(** A cell; [None] is the default style of the library. *)
Record Cell : Type := {
  value : string;
  fill : option PatternFill;
  font : option Font;
  alignment : option Alignment;
  border : option Border
}.

Record Worksheet : Type := {
  title : string;
  cells : gmap (nat * nat) Cell;
  merged_cells : list string;
  column_width : gmap string Z
}.

Definition new_cell (v : string) : Cell :=
  {| value := v; fill := None; font := None; alignment := None;
     border := None |}.

Definition new_sheet (t : string) : Worksheet :=
  {| title := t; cells := ∅; merged_cells := []; column_width := ∅ |}.

Definition with_cells (f : gmap (nat * nat) Cell -> gmap (nat * nat) Cell)
    (ws : Worksheet) : Worksheet :=
  {| title := title ws; cells := f (cells ws);
     merged_cells := merged_cells ws; column_width := column_width ws |}.

(** [ws.cell(row, column, value)]: the cell is created when absent. *)
Definition ws_cell (row col : nat) (v : string) (ws : Worksheet) : Worksheet :=
  with_cells (fun m =>
    match m !! (row, col) with
    | Some c =>
        <[(row, col) := {| value := v; fill := fill c; font := font c;
                           alignment := alignment c; border := border c |}]> m
    | None => <[(row, col) := new_cell v]> m
    end) ws.

Definition set_fill (row col : nat) (x : PatternFill) : Worksheet -> Worksheet :=
  with_cells (alter (fun c =>
    {| value := value c; fill := Some x; font := font c;
       alignment := alignment c; border := border c |}) (row, col)).

Definition set_font (row col : nat) (x : Font) : Worksheet -> Worksheet :=
  with_cells (alter (fun c =>
    {| value := value c; fill := fill c; font := Some x;
       alignment := alignment c; border := border c |}) (row, col)).

Definition set_alignment (row col : nat) (x : Alignment)
    : Worksheet -> Worksheet :=
  with_cells (alter (fun c =>
    {| value := value c; fill := fill c; font := font c;
       alignment := Some x; border := border c |}) (row, col)).

Definition set_border (row col : nat) (x : Border) : Worksheet -> Worksheet :=
  with_cells (alter (fun c =>
    {| value := value c; fill := fill c; font := font c;
       alignment := alignment c; border := Some x |}) (row, col)).

Definition merge_cells (range : string) (ws : Worksheet) : Worksheet :=
  {| title := title ws; cells := cells ws;
     merged_cells := (merged_cells ws ++ [range])%list;
     column_width := column_width ws |}.

Definition set_width (col : string) (w : Z) (ws : Worksheet) : Worksheet :=
  {| title := title ws; cells := cells ws; merged_cells := merged_cells ws;
     column_width := <[col := w]> (column_width ws) |}.

(** [enumerate(l, start)]. *)
Fixpoint enumerate {A : Type} (start : nat) (l : list A) : list (nat * A) :=
  match l with
  | [] => []
  | x :: l' => (start, x) :: enumerate (S start) l'
  end.

(** The styles defined at the top of [create_styled_excel]. *)
Definition solid (rgb : string) : PatternFill :=
  {| start_color := rgb; end_color := rgb; fill_type := "solid" |}.

Definition header_fill : PatternFill := solid "366092".
Definition header_font : Font :=
  {| color := Some "FFFFFF"; bold := true; size := None |}.
Definition improvement_good_fill : PatternFill := solid "C6EFCE".
Definition improvement_bad_fill : PatternFill := solid "FFC7CE".
Definition border_thin : Border :=
  {| side_left := "thin"; side_right := "thin"; side_top := "thin";
     side_bottom := "thin" |}.

Definition font_color (rgb : string) : Font :=
  {| color := Some rgb; bold := false; size := None |}.
Definition font_bold : Font :=
  {| color := None; bold := true; size := None |}.
Definition center : Alignment :=
  {| horizontal := Some "center"; vertical := None |}.

Definition metrics : list string :=
  ["RMSE"; "MAE"; "MAPE"; "R2"; "AIC"; "BIC"].

(** [comparison_df[name]] for the two improvement columns: a frame built
    from an empty list of rows has no columns at all. *)
Definition getitem (name : string) (col : ComparisonRow -> float)
    (comparison_df : list ComparisonRow) : result (list float) :=
  match comparison_df with
  | [] => Raise (KeyError name)
  | _ :: _ => Ok (map col comparison_df)
  end.

(** [Series.mean()] on a float column: the sum of the values that are not
    missing over their count, and NaN when there is none.  The sum is taken
    from left to right. *)
Definition Series_mean (s : list float) : float :=
  let count := length (List.filter (fun x => negb (pd_isna x)) s) in
  let the_sum :=
    fold_left (fun acc x => if pd_isna x then acc else fadd acc x) s fzero in
  if (0 <? count)%nat then fdiv the_sum (of_Z (Z.of_nat count)) else nan.

(** The colour coding of an exogenous or EEMD cell. *)
Definition color_code (row col : nat) (imp : float) (ws : Worksheet)
    : Worksheet :=
  if negb (pd_isna imp) then
    if fltb fzero imp then
      set_font row col (font_color "006100")
        (set_fill row col improvement_good_fill ws)
    else if fltb imp fzero then
      set_font row col (font_color "9C0006")
        (set_fill row col improvement_bad_fill ws)
    else ws
  else ws.

Definition header_cell (ws : Worksheet) (h : nat * string) : Worksheet :=
  let '(col_idx, header) := h in
  let ws := ws_cell 3 col_idx header ws in
  let ws := set_fill 3 col_idx header_fill ws in
  let ws := set_font 3 col_idx header_font ws in
  let ws := set_alignment 3 col_idx
              {| horizontal := Some "center"; vertical := Some "center" |} ws in
  set_border 3 col_idx border_thin ws.

(** The body of the loop over [comparison_df.itertuples(index=False)]. *)
Definition data_row (ws : Worksheet) (r : nat * ComparisonRow) : Worksheet :=
  let '(row_idx, row_data) := r in
  let ws := ws_cell row_idx 1 (row_Model row_data) ws in
  let ws := set_border row_idx 1 border_thin ws in
  let ws := set_font row_idx 1 font_bold ws in
  let ws := ws_cell row_idx 2 (Baseline row_data) ws in
  let ws := set_border row_idx 2 border_thin ws in
  let ws := set_alignment row_idx 2 center ws in
  let ws := ws_cell row_idx 3 (Exogenous row_data) ws in
  let ws := set_border row_idx 3 border_thin ws in
  let ws := set_alignment row_idx 3 center ws in
  let ws := color_code row_idx 3 (exog_imp row_data) ws in
  let ws := ws_cell row_idx 4 (EEMD row_data) ws in
  let ws := set_border row_idx 4 border_thin ws in
  let ws := set_alignment row_idx 4 center ws in
  color_code row_idx 4 (eemd_imp row_data) ws.

(** The body of the loop over [metrics]: the sheet of one metric. *)
Definition metric_sheet (metric : string) (comparison_df : list ComparisonRow)
    : result Worksheet :=
  let ws := new_sheet metric in
  let ws :=
    ws_cell 1 1 (metric +:+ " Comparison: Baseline vs Exogenous vs EEMD") ws in
  let ws :=
    set_font 1 1 {| color := None; bold := true; size := Some 14 |} ws in
  let ws := merge_cells "A1:E1" ws in
  let headers := ["Model"; "Baseline"; "Exogenous (Δ%)"; "EEMD (Δ%)"] in
  let ws := fold_left header_cell (enumerate 1 headers) ws in
  let ws := fold_left data_row (enumerate 4 comparison_df) ws in
  let summary_row := (length comparison_df + 5)%nat in
  let ws := ws_cell summary_row 1 "Average Improvement:" ws in
  let ws := set_font summary_row 1 font_bold ws in
  exog_col ← getitem "exog_imp" exog_imp comparison_df;
  let avg_exog := Series_mean exog_col in
  eemd_col ← getitem "eemd_imp" eemd_imp comparison_df;
  let avg_eemd := Series_mean eemd_col in
  let ws := ws_cell summary_row 2 "Baseline" ws in
  let ws := ws_cell summary_row 3 (format_f true 2 avg_exog +:+ "%") ws in
  let ws := ws_cell summary_row 4 (format_f true 2 avg_eemd +:+ "%") ws in
  let ws := set_width "A" 20 ws in
  let ws := set_width "B" 15 ws in
  let ws := set_width "C" 25 ws in
  Ok (set_width "D" 25 ws).

(** One entry of [summary_data], as the row [dataframe_to_rows] yields. *)
Definition summary_entry `{RegexEngine} (results_df : list MetricRecord)
    (baseline_label exog_label eemd_label metric : string)
    : result (list string) :=
  comparison_df ← create_comparison_table results_df metric baseline_label
                    exog_label eemd_label;
  exog_col ← getitem "exog_imp" exog_imp comparison_df;
  let avg_exog := Series_mean exog_col in
  eemd_col ← getitem "eemd_imp" eemd_imp comparison_df;
  let avg_eemd := Series_mean eemd_col in
  Ok [metric; format_f true 2 avg_exog; format_f true 2 avg_eemd].

Definition summary_cell (row_idx : nat) (ws : Worksheet) (c : nat * string)
    : Worksheet :=
  let '(col_idx, v) := c in
  let ws := ws_cell row_idx col_idx v ws in
  let ws :=
    if Nat.eqb row_idx 3
    then set_font row_idx col_idx header_font
           (set_fill row_idx col_idx header_fill ws)
    else ws in
  let ws := set_border row_idx col_idx border_thin ws in
  set_alignment row_idx col_idx center ws.

Definition summary_row_cells (ws : Worksheet) (r : nat * list string)
    : Worksheet :=
  let '(row_idx, row_data) := r in
  fold_left (summary_cell row_idx) (enumerate 1 row_data) ws.

Definition summary_sheet (summary_data : list (list string)) : Worksheet :=
  let ws := new_sheet "Summary" in
  let ws := ws_cell 1 1 "Model Performance Summary" ws in
  let ws :=
    set_font 1 1 {| color := None; bold := true; size := Some 16 |} ws in
  let rows :=
    ["Metric"; "Avg Exog Improvement (%)"; "Avg EEMD Improvement (%)"]
    :: summary_data in
  let ws := fold_left summary_row_cells (enumerate 3 rows) ws in
  let ws := set_width "A" 15 ws in
  let ws := set_width "B" 25 ws in
  set_width "C" 25 ws.

(** The workbook at the point of [wb.save]: the sheets in order, the
    summary sheet inserted at index 0.  A sheet enters the list once its
    loop body has run; the workbook of a call that raises is never
    observed. *)
Definition build_workbook `{RegexEngine} (results_df : list MetricRecord)
    (baseline_label exog_label eemd_label : string)
    : result (list Worksheet) :=
  sheets ← mapM (fun metric =>
                   comparison_df ← create_comparison_table results_df metric
                                     baseline_label exog_label eemd_label;
                   metric_sheet metric comparison_df) metrics;
  summary_data ← mapM (summary_entry results_df baseline_label exog_label
                         eemd_label) metrics;
  Ok (summary_sheet summary_data :: sheets).

(** What the function can change outside itself: the files written and the
    lines printed.  [wb.save] is taken to succeed. *)
Record World : Type := {
  files : gmap string (list Worksheet);
  stdout : list string
}.

Definition create_styled_excel `{RegexEngine}
    (results_df : list MetricRecord)
    (output_path baseline_label exog_label eemd_label : string)
    (w : World) : result unit * World :=
  match build_workbook results_df baseline_label exog_label eemd_label with
  | Raise e => (Raise e, w)
  | Ok wb =>
      (Ok tt,
       {| files := <[output_path := wb]> (files w);
          stdout := (stdout w ++
                     [String Re.newline "✅ Comparison tables saved to: "
                      +:+ output_path])%list |})
  end.

(** ** Notions used to state the properties *)

(** The first occurrence of [x] in [l] comes before every occurrence of
    [y]. *)
Definition first_before (x y : string) (l : list string) : Prop :=
  exists l1 l2, l = (l1 ++ x :: l2)%list /\ ~ In x l1 /\ ~ In y l1 /\ x <> y.

(** The display string of a scenario value, as the specification words it:
    "N/A" for a missing value, the value with three decimals followed by the
    signed one-decimal percentage in parentheses when the improvement is
    defined, the value alone otherwise. *)
Definition spec_display (val imp : float) : string :=
  if pd_isna val then "N/A"
  else if pd_isna imp then format_f false 3 val
  else format_f false 3 val +:+ " (" +:+ format_f true 1 imp +:+ "%)".

(** The characters with a meaning in a regular expression, and the labels
    that hold none of them. *)
Definition metachar (c : ascii) : bool :=
  Ascii.eqb c "\" || Ascii.eqb c "(" || Ascii.eqb c ")" || Ascii.eqb c "|"
  || (Ascii.eqb c "*" || Ascii.eqb c "+") || Ascii.eqb c "?"
  || Ascii.eqb c "."
  || (Ascii.eqb c "^" || Ascii.eqb c "$" || Ascii.eqb c "["
      || Ascii.eqb c "]" || Ascii.eqb c "{" || Ascii.eqb c "}").

Fixpoint plain (s : string) : bool :=
  match s with
  | EmptyString => true
  | String c s' => negb (metachar c) && plain s'
  end.

(** The expression [r] followed by the characters of [w]. *)
Fixpoint lits (r : Re.regex) (w : string) : Re.regex :=
  match w with
  | EmptyString => r
  | String c w' => lits (Re.cat r (Re.Chr c)) w'
  end.

(** Strings made of a non-empty run of decimal digits, a point, and
    exactly [digits] decimal digits. *)
Definition is_digit (c : ascii) : bool :=
  let n := nat_of_ascii c in ((48 <=? n) && (n <=? 57))%nat.

Fixpoint all_digits (s : string) : bool :=
  match s with
  | EmptyString => true
  | String c s' => is_digit c && all_digits s'
  end.

Definition fixed_point (digits : nat) (s : string) : Prop :=
  exists int frac,
    s = int +:+ "." +:+ frac /\ int <> "" /\ all_digits int = true /\
    all_digits frac = true /\ String.length frac = digits.

(** The decimals printed for the remainder [k] are [d] digits. *)
Definition decimals_ok (d : nat) (k : nat) : bool :=
  let s := drop_first (Z_to_string (10 ^ Z.of_nat d + Z.of_nat k)) in
  Nat.eqb (String.length s) d && all_digits s.

Definition is_finite (x : float) : bool :=
  match x with
  | S754_zero _ | S754_finite _ _ _ => true
  | _ => false
  end.




(** The style a data cell ends with. *)
Definition styled (c : Cell) (f : PatternFill) (rgb : string) : Prop :=
  fill c = Some f /\ font c = Some (font_color rgb).

Definition unstyled (c : Cell) : Prop :=
  fill c = None /\ font c = None.

(** The style of an exogenous or EEMD cell against its improvement: "good"
    exactly for a strictly positive percentage, "bad" exactly for a strictly
    negative one, no style exactly for an undefined or zero one. *)
Definition improvement_style (c : Cell) (imp : float) : Prop :=
  (styled c improvement_good_fill "006100" <-> fltb fzero imp = true) /\
  (styled c improvement_bad_fill "9C0006" <-> fltb imp fzero = true) /\
  (unstyled c <-> pd_isna imp = true \/ feqb imp fzero = true).

(** The records of the three scenarios of the examples. *)
Definition rmse_record (model : string) (v : Z) : MetricRecord :=
  {| Model := model;
     metric_value := fun m => if String.eqb m "RMSE" then of_Z v else nan |}.

(** The sign bit of a float. *)
Definition is_negative (x : float) : bool :=
  match x with
  | S754_zero s | S754_infinity s | S754_finite s _ _ => s
  | S754_nan => false
  end.

(** Strings without a dash. *)
Fixpoint no_dash (s : string) : bool :=
  match s with
  | EmptyString => true
  | String c s' => negb (Ascii.eqb c "-") && no_dash s'
  end.

(** The line printed once the workbook is saved. *)
Definition confirmation (output_path : string) : string :=
  String Re.newline "✅ Comparison tables saved to: " +:+ output_path.

(** The cells the loops of [create_styled_excel] leave behind: a header
    cell, a cell with a border and centred text, the cell of a model name. *)
Definition header_styled (v : string) : Cell :=
  {| value := v; fill := Some header_fill; font := Some header_font;
     alignment := Some {| horizontal := Some "center";
                          vertical := Some "center" |};
     border := Some border_thin |}.

Definition summary_header_styled (v : string) : Cell :=
  {| value := v; fill := Some header_fill; font := Some header_font;
     alignment := Some center; border := Some border_thin |}.

Definition bordered_centered (v : string) : Cell :=
  {| value := v; fill := None; font := None; alignment := Some center;
     border := Some border_thin |}.

Definition model_name_cell (v : string) : Cell :=
  {| value := v; fill := None; font := Some font_bold; alignment := None;
     border := Some border_thin |}.

(** The positions a metric sheet with [n] data rows populates: the title,
    the header row, the data rows and the summary row, the latter three over
    four columns. *)
Definition in_layout (n r c : nat) : Prop :=
  (r = 1 /\ c = 1)%nat \/
  ((r = 3 \/ 4 <= r < 4 + n \/ r = n + 5) /\ 1 <= c <= 4)%nat.

(** * Properties *)

(** ** calculate_improvement *)

Lemma is_zero_feqb (b : float) :
  pd_isna b = false -> feqb b fzero = false -> is_zero b = false.
Proof. destruct b as [s|s| |s m e]; cbv; intros; congruence. Qed.

Lemma is_zero_fabs (b : float) : is_zero (fabs b) = is_zero b.
Proof. destruct b; reflexivity. Qed.

(** The value computed when both inputs are present and the baseline is not
    zero. *)
Lemma calculate_improvement_defined (b c : float) (metric : string) :
  pd_isna b = false -> pd_isna c = false -> feqb b fzero = false ->
  calculate_improvement b c metric =
  Ok (if String.eqb metric "R2"
      then fmul (fdiv (fsub c b) (fabs b)) (of_Z 100)
      else fmul (fdiv (fsub b c) b) (of_Z 100)).
Proof.
  intros Hb Hc Hz. unfold calculate_improvement, py_truediv.
  rewrite Hb, Hc, Hz, is_zero_fabs, (is_zero_feqb b Hb Hz). simpl.
  destruct (String.eqb metric "R2"); reflexivity.
Qed.

(** The division is guarded: no call raises. *)
Lemma calculate_improvement_total (b c : float) (metric : string) :
  exists x, calculate_improvement b c metric = Ok x.
Proof.
  destruct (pd_isna b) eqn:Hb.
  { exists nan. unfold calculate_improvement. rewrite Hb. reflexivity. }
  destruct (pd_isna c) eqn:Hc.
  { exists nan. unfold calculate_improvement. rewrite Hb, Hc. reflexivity. }
  destruct (feqb b fzero) eqn:Hz.
  { exists nan. unfold calculate_improvement. rewrite Hb, Hc, Hz. reflexivity. }
  eexists. apply calculate_improvement_defined; assumption.
Qed.

(** ** Shape of the formatted numbers *)

Lemma all_digits_string_of_uint (u : Decimal.uint) :
  all_digits (NilEmpty.string_of_uint u) = true.
Proof. induction u; simpl; auto. Qed.

Lemma Z_to_string_digits (n : Z) :
  all_digits (Z_to_string n) = true /\ Z_to_string n <> "".
Proof.
  unfold Z_to_string. split; [ apply all_digits_string_of_uint | ].
  destruct (Z.to_N n) as [|p]; simpl; [ discriminate | ].
  pose proof (DecimalPos.Unsigned.to_uint_nonnil p) as Hp.
  destruct (Pos.to_uint p); simpl; congruence.
Qed.

Lemma decimals_shape (d : nat) (r : Z) :
  (d = 1 \/ d = 2 \/ d = 3)%nat -> 0 <= r < 10 ^ Z.of_nat d ->
  let s := drop_first (Z_to_string (10 ^ Z.of_nat d + r)) in
  String.length s = d /\ all_digits s = true.
Proof.
  intros Hd Hr.
  assert (Hall : forallb (decimals_ok d) (seq 0 (Z.to_nat (10 ^ Z.of_nat d)))
                 = true).
  { destruct Hd as [-> | [-> | ->]]; vm_compute; reflexivity. }
  rewrite forallb_forall in Hall.
  specialize (Hall (Z.to_nat r)).
  unfold decimals_ok in Hall. rewrite Z2Nat.id in Hall by lia.
  assert (Hin : In (Z.to_nat r) (seq 0 (Z.to_nat (10 ^ Z.of_nat d)))).
  { apply in_seq. lia. }
  apply Hall, andb_prop in Hin as [H1 H2].
  apply Nat.eqb_eq in H1. cbv zeta. auto.
Qed.

Lemma fixed_digits_shape (d : nat) (n : Z) :
  (d = 1 \/ d = 2 \/ d = 3)%nat -> fixed_point d (fixed_digits d n).
Proof.
  intros Hd. unfold fixed_digits, fixed_point.
  assert (Hp : 0 < 10 ^ Z.of_nat d) by (apply Z.pow_pos_nonneg; lia).
  destruct (decimals_shape d (n mod 10 ^ Z.of_nat d) Hd) as [Hlen Hdig].
  { apply Z.mod_pos_bound. exact Hp. }
  destruct (Z_to_string_digits (n / 10 ^ Z.of_nat d)) as [Hint Hne].
  exists (Z_to_string (n / 10 ^ Z.of_nat d)),
         (drop_first (Z_to_string (10 ^ Z.of_nat d + n mod 10 ^ Z.of_nat d))).
  destruct d as [|d]; [ lia | ]. auto.
Qed.

(** A finite number printed with one, two or three decimals is an optional
    sign followed by digits, a point, and that many digits; with the [+]
    flag the sign is never omitted. *)
Lemma format_f_shape (always_sign : bool) (d : nat) (x : float) :
  (d = 1 \/ d = 2 \/ d = 3)%nat -> is_finite x = true ->
  exists sgn body,
    format_f always_sign d x = sgn +:+ body /\ fixed_point d body /\
    (sgn = "-" \/ sgn = if always_sign then "+" else "").
Proof.
  intros Hd Hx. destruct x as [s|s| |s m e]; try discriminate; simpl.
  - exists (sign_str always_sign s), (fixed_digits d 0).
    split; [ reflexivity | ]. split; [ apply fixed_digits_shape, Hd | ].
    destruct s; simpl; auto.
  - exists (sign_str always_sign s), (fixed_digits d (scaled m e d)).
    split; [ reflexivity | ]. split; [ apply fixed_digits_shape, Hd | ].
    destruct s; simpl; auto.
Qed.

(** C1, at a negative baseline: for AIC, baseline -100 and comparison -150
    (the comparison is lower, hence better), the percentage returned is -50,
    which is not positive. *)
Theorem calculate_improvement_negative_baseline :
  fltb (of_Z (-150)) (of_Z (-100)) = true /\
  calculate_improvement (of_Z (-100)) (of_Z (-150)) "AIC" = Ok (of_Z (-50)) /\
  fltb fzero (of_Z (-50)) = false /\
  calculate_improvement (of_Z (-100)) (of_Z (-150)) "R2" = Ok (of_Z (-50)).
Proof. repeat split; vm_compute; reflexivity. Qed.

Lemma calculate_improvement_nan (b c : float) (metric : string) :
  pd_isna b = true \/ pd_isna c = true \/ feqb b fzero = true ->
  calculate_improvement b c metric = Ok nan.
Proof.
  unfold calculate_improvement. intros [H | [H | H]].
  - rewrite H. reflexivity.
  - rewrite H, orb_true_r. reflexivity.
  - rewrite H. destruct (pd_isna b || pd_isna c); reflexivity.
Qed.

(** C2: whatever the metric, the result is NaN, and not an exception, as soon
    as the baseline is missing, the comparison is missing, or the baseline
    equals zero. *)
Theorem calculate_improvement_undefined (b c : float) (metric : string) :
  pd_isna b = true \/ pd_isna c = true \/ feqb b fzero = true ->
  calculate_improvement b c metric = Ok nan.
Proof. apply calculate_improvement_nan. Qed.

Lemma calculate_improvement_undefined_witness :
  feqb (S754_zero true) fzero = true /\
  calculate_improvement (S754_zero true) (of_Z 3) "RMSE" = Ok nan.
Proof.
  split; [ reflexivity | ].
  apply (calculate_improvement_undefined (S754_zero true) (of_Z 3) "RMSE").
  right; right; reflexivity.
Defined.

(** C3: with both values present and a non-zero baseline, R2 gives
    ((c - b) / abs(b)) * 100 and every other metric ((b - c) / b) * 100, in
    binary64 arithmetic.  For b = 0.50 and c = 0.60 the R2 result prints as
    +20.0 and the RMSE result as -20.0 under the table's [+.1f] format, and
    both lie within 1e-12 of 20 and -20. *)
Theorem calculate_improvement_formula :
  (forall b c : float,
     pd_isna b = false -> pd_isna c = false -> feqb b fzero = false ->
     calculate_improvement b c "R2" =
       Ok (fmul (fdiv (fsub c b) (fabs b)) (of_Z 100)) /\
     forall metric : string, metric <> "R2" ->
       calculate_improvement b c metric =
         Ok (fmul (fdiv (fsub b c) b) (of_Z 100))) /\
  (exists r, calculate_improvement (of_decimal 50 2) (of_decimal 60 2) "R2"
             = Ok r /\
             format_f true 1 r = "+20.0" /\
             fltb (fabs (fsub r (of_Z 20))) (of_decimal 1 12) = true) /\
  (exists r, calculate_improvement (of_decimal 50 2) (of_decimal 60 2) "RMSE"
             = Ok r /\
             format_f true 1 r = "-20.0" /\
             fltb (fabs (fsub r (of_Z (-20)))) (of_decimal 1 12) = true).
Proof.
  split; [ | split ].
  - intros b c Hb Hc Hz. split.
    + rewrite calculate_improvement_defined by assumption. reflexivity.
    + intros metric Hm.
      rewrite calculate_improvement_defined by assumption.
      destruct (String.eqb_spec metric "R2"); [ contradiction | reflexivity ].
  - eexists. split; [ vm_compute; reflexivity | ].
    split; vm_compute; reflexivity.
  - eexists. split; [ vm_compute; reflexivity | ].
    split; vm_compute; reflexivity.
Qed.

Lemma calculate_improvement_formula_witness :
  calculate_improvement (of_Z 10) (of_Z 8) "MAE" =
  Ok (fmul (fdiv (fsub (of_Z 10) (of_Z 8)) (of_Z 10)) (of_Z 100)).
Proof.
  refine (proj2 (proj1 calculate_improvement_formula (of_Z 10) (of_Z 8)
                   _ _ _) "MAE" _).
  - reflexivity.
  - reflexivity.
  - reflexivity.
  - discriminate.
Defined.

(** ** The error monad *)

Lemma mapM_cons {A B : Type} (f : A -> result B) (x : A) (l : list A) :
  mapM f (x :: l) = y ← f x; k ← mapM f l; Ok (y :: k).
Proof. reflexivity. Qed.

Lemma mapM_result_ok {A B : Type} (f : A -> result B) (l : list A) :
  (forall x, In x l -> exists y, f x = Ok y) ->
  exists ys, mapM f l = Ok ys /\ Forall2 (fun x y => f x = Ok y) l ys.
Proof.
  induction l as [|x l IH]; intros Hf.
  - exists []. split; [ reflexivity | constructor ].
  - destruct (Hf x (or_introl eq_refl)) as [y Hy].
    destruct IH as (ys & Hys & Hall).
    { intros z Hz. apply Hf. right. exact Hz. }
    exists (y :: ys). rewrite mapM_cons, Hy. simpl. rewrite Hys. simpl.
    split; [ reflexivity | constructor; assumption ].
Qed.

Lemma mapM_result_raise {A B : Type} (f : A -> result B) (x : A) (l : list A)
    (e : exn) :
  f x = Raise e -> mapM f (x :: l) = Raise e.
Proof. intros H. rewrite mapM_cons, H. reflexivity. Qed.

(** ** [unique] *)

Lemma filter_split {A : Type} (P : A -> bool) (u f1 : list A) (x : A)
    (f2 : list A) :
  List.filter P u = (f1 ++ x :: f2)%list ->
  exists u1 u2, u = (u1 ++ x :: u2)%list /\
                List.filter P u1 = f1 /\ List.filter P u2 = f2.
Proof.
  revert f1. induction u as [|a u IH]; intros f1 H; simpl in H.
  - destruct f1; discriminate.
  - destruct (P a) eqn:Pa.
    + destruct f1 as [|b f1]; simpl in H; injection H as Ha Hrest.
      * subst a. exists [], u. simpl. auto.
      * subst b. destruct (IH f1 Hrest) as (u1 & u2 & -> & H1 & H2).
        exists (a :: u1), u2. simpl. rewrite Pa, H1. auto.
    + destruct (IH f1 H) as (u1 & u2 & -> & H1 & H2).
      exists (a :: u1), u2. simpl. rewrite Pa. auto.
Qed.

Lemma unique_In (l : list string) (y : string) : In y (unique l) <-> In y l.
Proof.
  induction l as [|x l IH]; simpl; [ tauto | ].
  rewrite filter_In, IH.
  destruct (String.eqb_spec x y) as [->|Hne]; simpl; intuition congruence.
Qed.

Lemma unique_NoDup (l : list string) : List.NoDup (unique l).
Proof.
  induction l as [|x l IH]; simpl; constructor.
  - rewrite filter_In. intros [_ H]. rewrite String.eqb_refl in H.
    discriminate.
  - apply List.NoDup_filter, IH.
Qed.

Lemma unique_first_before (l u1 u2 : list string) (x y : string) :
  unique l = (u1 ++ x :: u2)%list -> In y u2 -> first_before x y l.
Proof.
  revert u1 u2. induction l as [|a l IH]; intros u1 u2 H Hy; simpl in H.
  - destruct u1; discriminate.
  - destruct u1 as [|b u1]; simpl in H; injection H as Ha Hrest.
    + subst a. exists [], l. rewrite <- Hrest in Hy.
      apply filter_In in Hy as [_ Hy].
      destruct (String.eqb_spec x y); [ discriminate | ].
      simpl. auto.
    + subst b. destruct (filter_split _ _ _ _ _ Hrest) as (v1 & v2 & Hu & H1 & H2).
      assert (Hx : In x (List.filter (fun z => negb (String.eqb a z))
                           (unique l))).
      { rewrite Hrest. apply in_or_app. right. left. reflexivity. }
      assert (Hy' : In y (List.filter (fun z => negb (String.eqb a z))
                            (unique l))).
      { rewrite Hrest. apply in_or_app. right. right. exact Hy. }
      apply filter_In in Hx as [_ Hx]. apply filter_In in Hy' as [_ Hy'].
      destruct (String.eqb_spec a x); [ discriminate | ].
      destruct (String.eqb_spec a y); [ discriminate | ].
      assert (Hy2 : In y v2).
      { rewrite <- H2 in Hy. apply filter_In in Hy as [Hy _]. exact Hy. }
      destruct (IH v1 v2 Hu Hy2) as (l1 & l2 & -> & Hx1 & Hy1 & Hxy).
      exists (a :: l1), l2. simpl. intuition congruence.
Qed.

(** ** Labels without metacharacters *)

Lemma step_plain (c : ascii) (st : Re.pstate) :
  metachar c = false -> Re.esc st = false ->
  Re.step c st = inr (Re.with_cur (Re.push_atom (Re.Chr c) (Re.cur st)) st).
Proof.
  unfold metachar. intros Hc Hesc.
  repeat (apply orb_false_elim in Hc as [Hc ?]).
  unfold Re.step. rewrite Hesc.
  repeat match goal with
         | H : _ = false |- _ => rewrite H; clear H
         end.
  reflexivity.
Qed.

Lemma run_plain (pat : string) (st : Re.pstate) :
  plain pat = true -> Re.esc st = false ->
  exists st',
    Re.run pat st = inr st' /\ Re.esc st' = false /\
    Re.stack st' = Re.stack st /\ Re.alts (Re.cur st') = Re.alts (Re.cur st) /\
    Re.flush (Re.cur st') = lits (Re.flush (Re.cur st)) pat.
Proof.
  revert st. induction pat as [|c pat IH]; intros st Hp Hesc; simpl in Hp.
  - exists st. auto.
  - apply andb_prop in Hp as [Hc Hp]. apply negb_true_iff in Hc.
    simpl. rewrite (step_plain c st Hc Hesc).
    destruct (IH (Re.with_cur (Re.push_atom (Re.Chr c) (Re.cur st)) st) Hp
                eq_refl) as (st' & Hrun & He & Hs & Ha & Hf).
    exists st'. auto.
Qed.

Lemma compile_plain (pat : string) :
  plain pat = true -> Re.compile pat = Ok (lits Re.Eps pat).
Proof.
  intros Hp. unfold Re.compile, Re.parse.
  destruct (run_plain pat
              {| Re.cur := Re.empty_frame; Re.stack := []; Re.esc := false;
                 Re.opened := false |} Hp eq_refl)
    as (st' & -> & -> & -> & Ha & Hf).
  simpl in *. unfold Re.close. rewrite Ha, Hf. reflexivity.
Qed.

Lemma cat_chr_nullable (r : Re.regex) (c : ascii) :
  Re.nullable (Re.cat r (Re.Chr c)) = false.
Proof. destruct r; simpl; auto using andb_false_r. Qed.

Lemma lits_nullable (r : Re.regex) (w : string) :
  Re.nullable r = false -> Re.nullable (lits r w) = false.
Proof.
  revert r. induction w as [|c w IH]; intros r Hr; [ exact Hr | ].
  simpl. apply IH, cat_chr_nullable.
Qed.

Lemma lits_void (w : string) : lits Re.Void w = Re.Void.
Proof. induction w; simpl; auto. Qed.

Lemma alt_void_r (r : Re.regex) : Re.alt r Re.Void = r.
Proof. destruct r; reflexivity. Qed.

Lemma deriv_cat_chr (x c : ascii) (r : Re.regex) :
  Re.nullable r = false ->
  Re.deriv x (Re.cat r (Re.Chr c)) = Re.cat (Re.deriv x r) (Re.Chr c).
Proof.
  intros Hr. destruct r; try discriminate; try reflexivity;
    cbn [Re.cat]; cbn [Re.deriv]; rewrite ?Hr, alt_void_r; reflexivity.
Qed.

Lemma deriv_lits (x : ascii) (r : Re.regex) (w : string) :
  Re.nullable r = false -> Re.deriv x (lits r w) = lits (Re.deriv x r) w.
Proof.
  revert r. induction w as [|c w IH]; intros r Hr; [ reflexivity | ].
  simpl. rewrite IH by apply cat_chr_nullable.
  rewrite deriv_cat_chr by exact Hr. reflexivity.
Qed.

Lemma match_prefix_void (s : string) : Re.match_prefix Re.Void s = false.
Proof. induction s; simpl; auto. Qed.

Lemma match_prefix_lits (w s : string) :
  Re.match_prefix (lits Re.Eps w) s = String.prefix w s.
Proof.
  revert s. induction w as [|c w IH]; intros s.
  - destruct s; reflexivity.
  - change (lits Re.Eps (String c w)) with (lits (Re.Chr c) w).
    destruct s as [|x s]; simpl.
    + rewrite lits_nullable by reflexivity. reflexivity.
    + rewrite lits_nullable by reflexivity. simpl.
      rewrite deriv_lits by reflexivity. simpl.
      destruct (Ascii.eqb_spec x c) as [->|Hne].
      * destruct (ascii_dec c c); [ apply IH | congruence ].
      * rewrite lits_void, match_prefix_void.
        destruct (ascii_dec c x); [ congruence | reflexivity ].
Qed.

(** For a label without metacharacters the test behind [str.contains] is
    the containment of the label as a literal substring. *)
Lemma plain_label_contains (label : string) :
  plain label = true ->
  exists re, re_compile label = Ok re /\
             forall s, re_search re s = str_in label s.
Proof.
  intros Hp. exists (lits Re.Eps label).
  split; [ exact (compile_plain label Hp) | ].
  intros s. change (Re.search (lits Re.Eps label) s = str_in label s).
  induction s as [|x s IH]; cbn [Re.search str_in];
    rewrite match_prefix_lits, ?IH; reflexivity.
Qed.

(** For a label without metacharacters, the partition is made of the rows
    whose [Model] contains the label as a literal substring. *)
Lemma plain_label_partition (label : string) (df : list NamedRecord) :
  plain label = true ->
  select_contains label df =
  Ok (List.filter (fun r => str_in label (Model (record r))) df).
Proof.
  intros Hp. destruct (plain_label_contains label Hp) as (re & Hre & Hs).
  unfold select_contains, scenario_partition. rewrite Hre. simpl. f_equal.
  apply List.filter_ext. intros r. apply Hs.
Qed.

(** ** The comparison table *)

Lemma comparison_row_ok (baseline_df exog_df eemd_df : list NamedRecord)
    (metric model : string) :
  exists row,
    comparison_row baseline_df exog_df eemd_df metric model = Ok row /\
    row_Model row = model /\
    calculate_improvement (first_value baseline_df model metric)
      (first_value exog_df model metric) metric = Ok (exog_imp row) /\
    calculate_improvement (first_value baseline_df model metric)
      (first_value eemd_df model metric) metric = Ok (eemd_imp row) /\
    Baseline row = spec_display (first_value baseline_df model metric) nan /\
    Exogenous row =
      spec_display (first_value exog_df model metric) (exog_imp row) /\
    EEMD row = spec_display (first_value eemd_df model metric) (eemd_imp row).
Proof.
  unfold comparison_row.
  destruct (calculate_improvement_total (first_value baseline_df model metric)
              (first_value exog_df model metric) metric) as [ei Hei].
  destruct (calculate_improvement_total (first_value baseline_df model metric)
              (first_value eemd_df model metric) metric) as [di Hdi].
  rewrite Hei, Hdi. simpl. eexists. split; [ reflexivity | ]. simpl.
  unfold spec_display.
  repeat split;
    repeat match goal with
           | |- context [pd_isna ?v] => destruct (pd_isna v); simpl
           end; reflexivity.
Qed.

Section ComparisonTable.

Context `{RegexEngine}.

Variable results_df : list MetricRecord.
Variables metric baseline_label exog_label eemd_label : string.
Variables rb rx rd : pattern.

Hypothesis baseline_compiles : re_compile baseline_label = Ok rb.
Hypothesis exog_compiles : re_compile exog_label = Ok rx.
Hypothesis eemd_compiles : re_compile eemd_label = Ok rd.

Local Abbreviation named :=
  (map (add_ModelName baseline_label exog_label eemd_label) results_df).
Local Abbreviation baseline_df := (scenario_partition rb named).
Local Abbreviation exog_df := (scenario_partition rx named).
Local Abbreviation eemd_df := (scenario_partition rd named).
Local Abbreviation table_of :=
  (create_comparison_table results_df metric baseline_label exog_label
     eemd_label).

Lemma create_comparison_table_unfold :
  table_of =
  mapM (comparison_row baseline_df exog_df eemd_df metric)
       (unique (map ModelName baseline_df)).
Proof.
  unfold create_comparison_table, select_contains.
  rewrite baseline_compiles, exog_compiles, eemd_compiles. reflexivity.
Qed.

Lemma create_comparison_table_rows :
  exists table,
    table_of = Ok table /\
    Forall2 (fun model row =>
               comparison_row baseline_df exog_df eemd_df metric model = Ok row)
            (unique (map ModelName baseline_df)) table.
Proof.
  rewrite create_comparison_table_unfold. apply mapM_result_ok.
  intros model _.
  destruct (comparison_row_ok baseline_df exog_df eemd_df metric model)
    as (row & Hrow & _).
  exists row. exact Hrow.
Qed.

Lemma create_comparison_table_names :
  exists table,
    table_of = Ok table /\
    map row_Model table = unique (map ModelName baseline_df).
Proof.
  destruct create_comparison_table_rows as (table & Ht & Hall).
  exists table. split; [ exact Ht | ]. clear Ht.
  induction Hall as [|model row names rows Hrow _ IH]; [ reflexivity | ].
  destruct (comparison_row_ok baseline_df exog_df eemd_df metric model)
    as (row' & Hrow' & Hm & _).
  rewrite Hrow in Hrow'. injection Hrow' as <-.
  cbn [map]. rewrite Hm. f_equal. exact IH.
Qed.

(** C4: the rows of the table are the bare model names of the baseline
    partition, each once, in order of first appearance there; a name carried
    only by records of the exogenous or decomposition partitions has no
    row. *)
Theorem comparison_table_rows_from_baseline :
  exists table,
    table_of = Ok table /\
    map row_Model table = unique (map ModelName baseline_df) /\
    (forall name,
       In name (map row_Model table) <->
       exists r, In r baseline_df /\ ModelName r = name) /\
    List.NoDup (map row_Model table) /\
    (forall n1 n2 x y,
       map row_Model table = (n1 ++ x :: n2)%list -> In y n2 ->
       first_before x y (map ModelName baseline_df)) /\
    (forall r,
       In r exog_df \/ In r eemd_df ->
       (forall b, In b baseline_df -> ModelName b <> ModelName r) ->
       ~ In (ModelName r) (map row_Model table)).
Proof.
  destruct create_comparison_table_names as (table & Ht & Hnames).
  exists table. split; [ exact Ht | ]. split; [ exact Hnames | ].
  assert (Hiff : forall name,
            In name (map row_Model table) <->
            exists r, In r baseline_df /\ ModelName r = name).
  { intros name. rewrite Hnames, unique_In, in_map_iff.
    split; intros (r & H1 & H2); exists r; auto. }
  split; [ exact Hiff | ]. split; [ | split ].
  - rewrite Hnames. apply unique_NoDup.
  - intros n1 n2 x y Hsplit Hy. rewrite Hnames in Hsplit.
    exact (unique_first_before _ _ _ _ _ Hsplit Hy).
  - intros r _ Hnone Hin. apply Hiff in Hin as (b & Hb & Heq).
    exact (Hnone b Hb Heq).
Qed.

(** C5: in every row, each scenario value's display string is "N/A" when
    the value is missing, the three-decimal value followed by the signed
    one-decimal improvement in parentheses when value and improvement are
    both defined, and the three-decimal value alone when the improvement is
    undefined, which includes a baseline equal to zero.  A finite value
    printed with three decimals is an optional minus sign, digits, a point
    and three digits; a finite percentage is a plus or minus sign, digits, a
    point and one digit. *)
Theorem comparison_table_display :
  (exists table,
     table_of = Ok table /\
     forall row, In row table ->
       let baseline_val := first_value baseline_df (row_Model row) metric in
       let exog_val := first_value exog_df (row_Model row) metric in
       let eemd_val := first_value eemd_df (row_Model row) metric in
       calculate_improvement baseline_val exog_val metric
         = Ok (exog_imp row) /\
       calculate_improvement baseline_val eemd_val metric
         = Ok (eemd_imp row) /\
       Baseline row = spec_display baseline_val nan /\
       Exogenous row = spec_display exog_val (exog_imp row) /\
       EEMD row = spec_display eemd_val (eemd_imp row) /\
       (feqb baseline_val fzero = true ->
        (pd_isna exog_val = false ->
         Exogenous row = format_f false 3 exog_val) /\
        (pd_isna eemd_val = false ->
         EEMD row = format_f false 3 eemd_val))) /\
  (forall val, is_finite val = true ->
     exists sgn body,
       format_f false 3 val = sgn +:+ body /\ fixed_point 3 body /\
       (sgn = "-" \/ sgn = "")) /\
  (forall imp, is_finite imp = true ->
     exists sgn body,
       format_f true 1 imp = sgn +:+ body /\ fixed_point 1 body /\
       (sgn = "-" \/ sgn = "+")).
Proof.
  split; [ | split; intros x Hx; apply format_f_shape; auto ].
  destruct create_comparison_table_rows as (table & Ht & Hall).
  exists table. split; [ exact Ht | ].
  intros row Hin.
  assert (Hrow : exists model,
            comparison_row baseline_df exog_df eemd_df metric model = Ok row).
  { clear Ht. induction Hall as [|model r names rows Hr _ IH].
    - destruct Hin.
    - destruct Hin as [<- | Hin]; [ exists model; exact Hr | exact (IH Hin) ]. }
  destruct Hrow as (model & Hrow).
  destruct (comparison_row_ok baseline_df exog_df eemd_df metric model)
    as (row' & Hrow' & Hm & He & Hd & Hbs & Hes & Hds).
  rewrite Hrow in Hrow'. injection Hrow' as <-.
  rewrite Hm. cbv zeta.
  repeat (split; [ assumption | ]).
  intros Hz.
  rewrite (calculate_improvement_nan _ _ metric
             (or_intror (or_intror Hz))) in He.
  rewrite (calculate_improvement_nan _ _ metric
             (or_intror (or_intror Hz))) in Hd.
  injection He as He. injection Hd as Hd.
  rewrite Hes, Hds, <- He, <- Hd. unfold spec_display.
  split; intros ->; reflexivity.
Qed.

End ComparisonTable.

Lemma comparison_table_rows_from_baseline_witness :
  exists table,
    create_comparison_table
      [rmse_record "ARIMA-Base" 10; rmse_record "LSTM-Exog" 8;
       rmse_record "SVR-Base" 7; rmse_record "ARIMA-Base" 11]
      "RMSE" "Base" "Exog" "EEMD" = Ok table /\
    map row_Model table = ["ARIMA"; "SVR"].
Proof.
  edestruct (comparison_table_rows_from_baseline
               [rmse_record "ARIMA-Base" 10; rmse_record "LSTM-Exog" 8;
                rmse_record "SVR-Base" 7; rmse_record "ARIMA-Base" 11]
               "RMSE" "Base" "Exog" "EEMD")
    as (table & Ht & Hnames & _); [ vm_compute; reflexivity .. | ].
  exists table. split; [ exact Ht | ]. rewrite Hnames. reflexivity.
Defined.

Lemma comparison_table_display_witness :
  exists table,
    create_comparison_table
      [rmse_record "ARIMA-Base" 0; rmse_record "ARIMA-Exog" 8]
      "RMSE" "Base" "Exog" "EEMD" = Ok table /\
    forall row, In row table ->
      Exogenous row = "8.000" /\ EEMD row = "N/A".
Proof.
  edestruct (comparison_table_display
               [rmse_record "ARIMA-Base" 0; rmse_record "ARIMA-Exog" 8]
               "RMSE" "Base" "Exog" "EEMD")
    as ((table & Ht & Hrows) & _); [ vm_compute; reflexivity .. | ].
  exists table. split; [ exact Ht | ].
  intros row Hin. destruct (Hrows row Hin) as (_ & _ & _ & He & Hd & _).
  vm_compute in Ht. injection Ht as <-. destruct Hin as [<- | []].
  split; [ rewrite He | rewrite Hd ]; vm_compute; reflexivity.
Defined.

(** C7: on the records ARIMA-Base with RMSE 10 and ARIMA-Exog with RMSE 8,
    the labels Base, Exog and EEMD and the metric RMSE, the table has exactly
    one row, for the bare model name ARIMA, with baseline display "10.000",
    exogenous display "8.000 (+20.0%)" and decomposition display "N/A". *)
Theorem scenario_arima_rmse :
  exists row,
    create_comparison_table
      [rmse_record "ARIMA-Base" 10; rmse_record "ARIMA-Exog" 8]
      "RMSE" "Base" "Exog" "EEMD" = Ok [row] /\
    row_Model row = "ARIMA" /\
    Baseline row = "10.000" /\
    Exogenous row = "8.000 (+20.0%)" /\
    EEMD row = "N/A".
Proof.
  eexists. split; [ vm_compute; reflexivity | ].
  repeat split.
Qed.

(** C9, at a label holding a regular-expression operator: the record
    "ARIMA-Exog+Lags" contains the label "Exog+Lags" as a literal substring,
    yet the selection of the exogenous partition leaves it out, while the
    [str.replace] of the same label, made with [regex=False], finds it. *)
Theorem partition_is_a_regex_search :
  let r := add_ModelName "Base" "Exog+Lags" "EEMD"
             (rmse_record "ARIMA-Exog+Lags" 8) in
  str_in "Exog+Lags" (Model (record r)) = true /\
  select_contains "Exog+Lags" [r] = Ok [] /\
  ModelName r = "ARIMA".
Proof. repeat split; vm_compute; reflexivity. Qed.

(** ** Cells of a worksheet *)

Lemma ws_cell_same (r c : nat) (v : string) (ws : Worksheet) :
  exists cl,
    cells (ws_cell r c v ws) !! (r, c) = Some cl /\ value cl = v /\
    (cells ws !! (r, c) = None -> cl = new_cell v).
Proof.
  unfold ws_cell, with_cells. simpl.
  destruct (cells ws !! (r, c)) as [cl|] eqn:E; rewrite lookup_insert_eq;
    eexists; (split; [ reflexivity | split; [ reflexivity | ] ]);
    intros H; [ discriminate | reflexivity ].
Qed.

Lemma ws_cell_other (r c : nat) (v : string) (ws : Worksheet) (k : nat * nat) :
  k <> (r, c) -> cells (ws_cell r c v ws) !! k = cells ws !! k.
Proof.
  intros Hk. unfold ws_cell, with_cells. simpl.
  destruct (cells ws !! (r, c)); apply lookup_insert_ne; congruence.
Qed.

Lemma alter_cells_same (g : Cell -> Cell) (k : nat * nat) (ws : Worksheet) :
  cells (with_cells (alter g k) ws) !! k = g <$> cells ws !! k.
Proof. unfold with_cells. simpl. apply lookup_alter_eq. Qed.

Lemma alter_cells_other (g : Cell -> Cell) (k k' : nat * nat)
    (ws : Worksheet) :
  k' <> k -> cells (with_cells (alter g k) ws) !! k' = cells ws !! k'.
Proof.
  intros Hk. unfold with_cells. simpl. apply lookup_alter_ne. congruence.
Qed.

Lemma set_fill_other r c x ws k :
  k <> (r, c) -> cells (set_fill r c x ws) !! k = cells ws !! k.
Proof. apply alter_cells_other. Qed.

Lemma set_font_other r c x ws k :
  k <> (r, c) -> cells (set_font r c x ws) !! k = cells ws !! k.
Proof. apply alter_cells_other. Qed.

Lemma set_alignment_other r c x ws k :
  k <> (r, c) -> cells (set_alignment r c x ws) !! k = cells ws !! k.
Proof. apply alter_cells_other. Qed.

Lemma set_border_other r c x ws k :
  k <> (r, c) -> cells (set_border r c x ws) !! k = cells ws !! k.
Proof. apply alter_cells_other. Qed.

Lemma color_code_other r c imp ws k :
  k <> (r, c) -> cells (color_code r c imp ws) !! k = cells ws !! k.
Proof.
  intros Hk. unfold color_code.
  destruct (negb (pd_isna imp)); [ | reflexivity ].
  destruct (fltb fzero imp);
    [ rewrite set_font_other, set_fill_other by exact Hk; reflexivity | ].
  destruct (fltb imp fzero);
    [ rewrite set_font_other, set_fill_other by exact Hk; reflexivity | ].
  reflexivity.
Qed.

Ltac key_ne := intros [= ?]; first [ discriminate | lia | congruence ].

Ltac cells_other :=
  repeat first
    [ rewrite ws_cell_other by key_ne
    | rewrite set_fill_other by key_ne
    | rewrite set_font_other by key_ne
    | rewrite set_alignment_other by key_ne
    | rewrite set_border_other by key_ne
    | rewrite color_code_other by key_ne ].

(** ** Signs of floats *)

Lemma float_sign_cases (x : float) :
  (pd_isna x = true /\ fltb fzero x = false /\ fltb x fzero = false /\
   feqb x fzero = false) \/
  (pd_isna x = false /\ fltb fzero x = true /\ fltb x fzero = false /\
   feqb x fzero = false) \/
  (pd_isna x = false /\ fltb fzero x = false /\ fltb x fzero = true /\
   feqb x fzero = false) \/
  (pd_isna x = false /\ fltb fzero x = false /\ fltb x fzero = false /\
   feqb x fzero = true).
Proof.
  destruct x as [s|s| |s m e]; try destruct s; cbv; intuition congruence.
Qed.

Lemma color_code_same (r c : nat) (imp : float) (ws : Worksheet) (cl : Cell) :
  cells ws !! (r, c) = Some cl -> fill cl = None -> font cl = None ->
  exists cl',
    cells (color_code r c imp ws) !! (r, c) = Some cl' /\
    value cl' = value cl /\ improvement_style cl' imp.
Proof.
  intros Hcl Hfill Hfont. unfold color_code, improvement_style, styled, unstyled.
  destruct (float_sign_cases imp) as [H | [H | [H | H]]];
    destruct H as (Hn & Hp & Hm & Hz); rewrite Hn, ?Hp, ?Hm, ?Hz;
    cbn [negb].
  - exists cl. rewrite Hfill, Hfont. intuition congruence.
  - unfold set_font, set_fill. rewrite !alter_cells_same, Hcl.
    eexists. split; [ reflexivity | ]. cbn [value fill font].
    split; [ reflexivity | ]. intuition (try discriminate; congruence).
  - unfold set_font, set_fill. rewrite !alter_cells_same, Hcl.
    eexists. split; [ reflexivity | ]. cbn [value fill font].
    split; [ reflexivity | ]. intuition (try discriminate; congruence).
  - exists cl. rewrite Hfill, Hfont. intuition congruence.
Qed.

(** ** Rows of a metric sheet *)

Lemma data_row_other (ws : Worksheet) (r : nat) (x : ComparisonRow)
    (k : nat * nat) :
  fst k <> r -> cells (data_row ws (r, x)) !! k = cells ws !! k.
Proof.
  destruct k as [kr kc]. cbn [fst]. intros Hk. unfold data_row.
  cells_other. reflexivity.
Qed.

Lemma data_cell (r c : nat) (v : string) (imp : float) (ws : Worksheet) :
  cells ws !! (r, c) = None ->
  exists cl,
    cells (color_code r c imp
             (set_alignment r c center
                (set_border r c border_thin (ws_cell r c v ws)))) !! (r, c)
    = Some cl /\
    value cl = v /\ improvement_style cl imp.
Proof.
  intros Hnone.
  destruct (ws_cell_same r c v ws) as (c0 & Hc0 & _ & Hnew).
  rewrite (Hnew Hnone) in Hc0.
  destruct (color_code_same r c imp
              (set_alignment r c center
                 (set_border r c border_thin (ws_cell r c v ws)))
              {| value := v; fill := None; font := None;
                 alignment := Some center; border := Some border_thin |})
    as (cl & Hcl & Hv & Hs); try reflexivity.
  { unfold set_alignment, set_border. rewrite !alter_cells_same, Hc0.
    reflexivity. }
  exists cl. auto.
Qed.

Lemma data_row_cells (ws : Worksheet) (r : nat) (x : ComparisonRow) :
  cells ws !! (r, 3%nat) = None -> cells ws !! (r, 4%nat) = None ->
  exists ce cd,
    cells (data_row ws (r, x)) !! (r, 3%nat) = Some ce /\
    value ce = Exogenous x /\ improvement_style ce (exog_imp x) /\
    cells (data_row ws (r, x)) !! (r, 4%nat) = Some cd /\
    value cd = EEMD x /\ improvement_style cd (eemd_imp x).
Proof.
  intros H3 H4. unfold data_row.
  match goal with
  | |- context [ws_cell r 3 (Exogenous x) ?w] =>
      destruct (data_cell r 3 (Exogenous x) (exog_imp x) w)
        as (ce & Hce & Hve & Hse)
  end.
  { cells_other. exact H3. }
  match goal with
  | |- context [ws_cell r 4 (EEMD x) ?w] =>
      destruct (data_cell r 4 (EEMD x) (eemd_imp x) w)
        as (cd & Hcd & Hvd & Hsd)
  end.
  { cells_other. exact H4. }
  exists ce, cd. rewrite Hcd. cells_other. rewrite Hce. auto 10.
Qed.

Lemma data_rows_outside (l : list ComparisonRow) (s : nat) (ws : Worksheet)
    (k : nat * nat) :
  (fst k < s \/ s + length l <= fst k)%nat ->
  cells (fold_left data_row (enumerate s l) ws) !! k = cells ws !! k.
Proof.
  revert s ws. induction l as [|x l IH]; intros s ws Hk; [ reflexivity | ].
  cbn [fold_left enumerate]. simpl length in Hk.
  rewrite IH by lia. apply data_row_other. lia.
Qed.

Lemma data_rows_cells (l : list ComparisonRow) (s : nat) (ws : Worksheet)
    (i : nat) (x : ComparisonRow) :
  (forall r c, (s <= r)%nat -> cells ws !! (r, c) = None) ->
  l !! i = Some x ->
  exists ce cd,
    cells (fold_left data_row (enumerate s l) ws) !! ((s + i)%nat, 3%nat)
    = Some ce /\
    value ce = Exogenous x /\ improvement_style ce (exog_imp x) /\
    cells (fold_left data_row (enumerate s l) ws) !! ((s + i)%nat, 4%nat)
    = Some cd /\
    value cd = EEMD x /\ improvement_style cd (eemd_imp x).
Proof.
  revert s ws i. induction l as [|y l IH]; intros s ws i Hfree Hi.
  - discriminate.
  - destruct i as [|i]; simpl in Hi.
    + injection Hi as ->. cbn [fold_left enumerate].
      rewrite !data_rows_outside by (simpl; lia).
      rewrite Nat.add_0_r. apply data_row_cells; apply Hfree; lia.
    + replace (s + S i)%nat with (S s + i)%nat by lia.
      cbn [fold_left enumerate].
      apply IH; [ | exact Hi ].
      intros r c Hr. rewrite data_row_other by (simpl; lia).
      apply Hfree. lia.
Qed.

Lemma header_cell_other (ws : Worksheet) (c : nat) (h : string)
    (k : nat * nat) :
  fst k <> 3%nat -> cells (header_cell ws (c, h)) !! k = cells ws !! k.
Proof.
  destruct k as [kr kc]. cbn [fst]. intros Hk. unfold header_cell.
  cells_other. reflexivity.
Qed.

Lemma header_cells_other (l : list string) (s : nat) (ws : Worksheet)
    (k : nat * nat) :
  fst k <> 3%nat ->
  cells (fold_left header_cell (enumerate s l) ws) !! k = cells ws !! k.
Proof.
  revert s ws. induction l as [|h l IH]; intros s ws Hk; [ reflexivity | ].
  cbn [fold_left enumerate]. rewrite IH by exact Hk.
  apply header_cell_other. exact Hk.
Qed.

(** ** The mean of a column *)




(** ** The sheet of one metric *)

Lemma color_code_title r c imp ws : title (color_code r c imp ws) = title ws.
Proof.
  unfold color_code. destruct (negb (pd_isna imp)); [ | reflexivity ].
  destruct (fltb fzero imp); [ reflexivity | ].
  destruct (fltb imp fzero); reflexivity.
Qed.

Lemma title_with_cells f ws : title (with_cells f ws) = title ws.
Proof. reflexivity. Qed.

Lemma data_row_title ws r : title (data_row ws r) = title ws.
Proof.
  destruct r as [r x].
  unfold data_row, set_alignment, set_border, set_font, ws_cell.
  repeat first [ rewrite title_with_cells | rewrite color_code_title ].
  reflexivity.
Qed.

Lemma data_rows_title (l : list ComparisonRow) (s : nat) (ws : Worksheet) :
  title (fold_left data_row (enumerate s l) ws) = title ws.
Proof.
  revert s ws. induction l as [|x l IH]; intros s ws; [ reflexivity | ].
  cbn [fold_left enumerate]. rewrite IH. apply data_row_title.
Qed.

Lemma value_ws_cell (r c : nat) (v : string) (ws : Worksheet) :
  value <$> cells (ws_cell r c v ws) !! (r, c) = Some v.
Proof.
  destruct (ws_cell_same r c v ws) as (cl & -> & <- & _). reflexivity.
Qed.

Lemma cells_set_width (col : string) (w : Z) (ws : Worksheet) :
  cells (set_width col w ws) = cells ws.
Proof. reflexivity. Qed.

(** What [metric_sheet] writes for a table with at least one row. *)
Lemma metric_sheet_spec (metric : string) (table : list ComparisonRow) :
  table <> [] ->
  exists ws,
    metric_sheet metric table = Ok ws /\
    title ws = metric /\
    value <$> cells ws !! ((length table + 5)%nat, 1%nat)
      = Some "Average Improvement:" /\
    value <$> cells ws !! ((length table + 5)%nat, 3%nat)
      = Some (format_f true 2 (Series_mean (map exog_imp table)) +:+ "%") /\
    value <$> cells ws !! ((length table + 5)%nat, 4%nat)
      = Some (format_f true 2 (Series_mean (map eemd_imp table)) +:+ "%") /\
    forall i row, table !! i = Some row ->
      exists ce cd,
        cells ws !! ((4 + i)%nat, 3%nat) = Some ce /\
        value ce = Exogenous row /\ improvement_style ce (exog_imp row) /\
        cells ws !! ((4 + i)%nat, 4%nat) = Some cd /\
        value cd = EEMD row /\ improvement_style cd (eemd_imp row).
Proof.
  intros Hne. destruct table as [|x t]; [ congruence | ].
  eexists. split; [ reflexivity | ].
  split; [ cbn [title set_width ws_cell with_cells set_font];
           rewrite data_rows_title; reflexivity | ].
  rewrite !cells_set_width.
  split; [ | split; [ | split ] ].
  - cells_other. unfold set_font. rewrite alter_cells_same.
    rewrite <- option_fmap_compose.
    change (value ∘ _) with value.
    apply value_ws_cell.
  - cells_other. apply value_ws_cell.
  - apply value_ws_cell.
  - intros i row Hi.
    assert (Hlen : (i < length (x :: t))%nat)
      by (eapply lookup_lt_Some; exact Hi).
    cbn [length] in Hlen |- *. cells_other.
    apply data_rows_cells; [ | exact Hi ].
    intros r c Hr. rewrite header_cells_other by (simpl; lia).
    cbn [merge_cells cells]. cells_other. apply lookup_empty.
Qed.

(** ** The workbook *)

Lemma Forall2_In_r {A B : Type} (Q : A -> B -> Prop) (l : list A)
    (l' : list B) (y : B) :
  Forall2 Q l l' -> In y l' -> exists x, In x l /\ Q x y.
Proof.
  induction 1 as [|x y' l l' Hxy _ IH]; intros Hin; [ destruct Hin | ].
  destruct Hin as [<- | Hin].
  - exists x. split; [ left; reflexivity | exact Hxy ].
  - destruct (IH Hin) as (x' & Hx' & HQ). exists x'. split; [ right | ]; auto.
Qed.

Lemma unique_nil (l : list string) : unique l = [] -> l = [].
Proof. destruct l; [ reflexivity | discriminate ]. Qed.

Lemma summary_cell_title r ws c : title (summary_cell r ws c) = title ws.
Proof.
  destruct c as [c v]. unfold summary_cell. destruct (Nat.eqb r 3); reflexivity.
Qed.

Lemma summary_row_cells_title ws r : title (summary_row_cells ws r) = title ws.
Proof.
  destruct r as [r l]. unfold summary_row_cells.
  generalize 1%nat. revert ws.
  induction l as [|v l IH]; intros ws s; [ reflexivity | ].
  cbn [fold_left enumerate]. rewrite IH. apply summary_cell_title.
Qed.

Lemma summary_rows_title (rows : list (list string)) (s : nat)
    (ws : Worksheet) :
  title (fold_left summary_row_cells (enumerate s rows) ws) = title ws.
Proof.
  revert s ws. induction rows as [|r rows IH]; intros s ws; [ reflexivity | ].
  cbn [fold_left enumerate]. rewrite IH. apply summary_row_cells_title.
Qed.

Lemma summary_sheet_title (summary_data : list (list string)) :
  title (summary_sheet summary_data) = "Summary".
Proof.
  unfold summary_sheet. cbn [title set_width].
  rewrite summary_rows_title. reflexivity.
Qed.

Section Report.

Context `{RegexEngine}.

Variable results_df : list MetricRecord.
Variables output_path baseline_label exog_label eemd_label : string.
Variables rb rx rd : pattern.
Variable w : World.

Hypothesis baseline_compiles : re_compile baseline_label = Ok rb.
Hypothesis exog_compiles : re_compile exog_label = Ok rx.
Hypothesis eemd_compiles : re_compile eemd_label = Ok rd.

Local Abbreviation named :=
  (map (add_ModelName baseline_label exog_label eemd_label) results_df).
Local Abbreviation baseline_df := (scenario_partition rb named).
Local Abbreviation table_of metric :=
  (create_comparison_table results_df metric baseline_label exog_label
     eemd_label).
Local Abbreviation sheet_of metric :=
  (comparison_df ← table_of metric; metric_sheet metric comparison_df).

Lemma table_nonempty (metric : string) :
  baseline_df <> [] -> exists table, table_of metric = Ok table /\ table <> [].
Proof.
  intros Hne.
  destruct (create_comparison_table_names results_df metric baseline_label
              exog_label eemd_label rb rx rd baseline_compiles exog_compiles
              eemd_compiles) as (table & Ht & Hnames).
  exists table. split; [ exact Ht | ].
  intros ->. simpl in Hnames. symmetry in Hnames.
  apply unique_nil, map_eq_nil in Hnames. exact (Hne Hnames).
Qed.

Lemma build_workbook_ok :
  baseline_df <> [] ->
  exists sheets summary_data,
    build_workbook results_df baseline_label exog_label eemd_label
    = Ok (summary_sheet summary_data :: sheets) /\
    Forall2 (fun metric ws => sheet_of metric = Ok ws) metrics sheets.
Proof.
  intros Hne. unfold build_workbook.
  destruct (mapM_result_ok (fun metric => sheet_of metric) metrics)
    as (sheets & Hsheets & Hall).
  { intros metric _. destruct (table_nonempty metric Hne) as (table & Ht & Hn).
    destruct (metric_sheet_spec metric table Hn) as (ws & Hws & _).
    exists ws. rewrite Ht. exact Hws. }
  destruct (mapM_result_ok
              (summary_entry results_df baseline_label exog_label eemd_label)
              metrics) as (sd & Hsd & _).
  { intros metric _. destruct (table_nonempty metric Hne) as (table & Ht & Hn).
    unfold summary_entry. rewrite Ht.
    destruct table as [|x t]; [ congruence | ]. eexists. reflexivity. }
  exists sheets, sd. rewrite Hsheets, Hsd. split; [ reflexivity | exact Hall ].
Qed.

(** Every sheet named after a metric is the sheet of that metric's table. *)
Lemma metric_sheets :
  baseline_df <> [] ->
  exists wb,
    create_styled_excel results_df output_path baseline_label exog_label
      eemd_label w
    = (Ok tt,
       {| files := <[output_path := wb]> (files w);
          stdout := (stdout w ++
                     [String Re.newline "✅ Comparison tables saved to: "
                      +:+ output_path])%list |}) /\
    map title wb = "Summary" :: metrics /\
    forall ws, In ws wb -> In (title ws) metrics ->
      exists table,
        table_of (title ws) = Ok table /\ table <> [] /\
        metric_sheet (title ws) table = Ok ws.
Proof.
  intros Hne. destruct (build_workbook_ok Hne) as (sheets & sd & Hwb & Hall).
  exists (summary_sheet sd :: sheets). unfold create_styled_excel.
  rewrite Hwb. split; [ reflexivity | ].
  split.
  { cbn [map]. rewrite summary_sheet_title. f_equal.
    clear Hwb. induction Hall as [|metric ws ms wss Hsheet _ IH];
      [ reflexivity | ].
    destruct (table_nonempty metric Hne) as (table & Ht & Hn).
    rewrite Ht in Hsheet. simpl in Hsheet.
    destruct (metric_sheet_spec metric table Hn) as (ws' & Hws' & Htitle' & _).
    assert (ws' = ws) as -> by congruence.
    cbn [map]. rewrite Htitle', IH. reflexivity. }
  intros ws [<- | Hin] Htitle.
  - rewrite summary_sheet_title in Htitle. simpl in Htitle.
    intuition discriminate.
  - destruct (Forall2_In_r _ _ _ _ Hall Hin) as (metric & _ & Hsheet).
    destruct (table_nonempty metric Hne) as (table & Ht & Hn).
    rewrite Ht in Hsheet. simpl in Hsheet.
    destruct (metric_sheet_spec metric table Hn) as (ws' & Hws' & Htitle' & _).
    assert (ws' = ws) as -> by congruence.
    rewrite Htitle'. exists table. auto.
Qed.


(** C8: in the sheet of each metric, the exogenous and the EEMD cell of every
    data row carry the display string of the row, with the "good" fill and
    font exactly when the row's improvement is strictly positive, the "bad"
    fill and font exactly when it is strictly negative, and neither fill nor
    font exactly when it is undefined or equal to zero. *)
Theorem improvement_cells_styled :
  baseline_df <> [] ->
  exists wb w',
    create_styled_excel results_df output_path baseline_label exog_label
      eemd_label w = (Ok tt, w') /\
    files w' !! output_path = Some wb /\
    map title wb = "Summary" :: metrics /\
    forall ws, In ws wb -> In (title ws) metrics ->
      exists table,
        table_of (title ws) = Ok table /\
        forall i row, table !! i = Some row ->
          exists exog_cell eemd_cell,
            cells ws !! ((4 + i)%nat, 3%nat) = Some exog_cell /\
            value exog_cell = Exogenous row /\
            improvement_style exog_cell (exog_imp row) /\
            cells ws !! ((4 + i)%nat, 4%nat) = Some eemd_cell /\
            value eemd_cell = EEMD row /\
            improvement_style eemd_cell (eemd_imp row).
Proof.
  intros Hne. destruct (metric_sheets Hne) as (wb & Hrun & Htitles & Hsheets).
  eexists wb, _. split; [ exact Hrun | ].
  split; [ apply lookup_insert_eq | ]. split; [ exact Htitles | ].
  intros ws Hin Htitle.
  destruct (Hsheets ws Hin Htitle) as (table & Ht & Hn & Hws).
  destruct (metric_sheet_spec (title ws) table Hn)
    as (ws' & Hws' & _ & _ & _ & _ & Hcells).
  assert (ws' = ws) as -> by congruence.
  exists table. split; [ exact Ht | exact Hcells ].
Qed.

Lemma empty_partition_report :
  (forall r, In r results_df -> re_search rb (Model r) = false) ->
  (forall metric, table_of metric = Ok []) /\
  getitem "exog_imp" exog_imp [] = Raise (KeyError "exog_imp") /\
  getitem "eemd_imp" eemd_imp [] = Raise (KeyError "eemd_imp") /\
  create_styled_excel results_df output_path baseline_label exog_label
    eemd_label w = (Raise (KeyError "exog_imp"), w).
Proof.
  intros Hnone.
  assert (Hempty : baseline_df = []).
  { unfold scenario_partition. clear -Hnone.
    induction results_df as [|r l IH]; [ reflexivity | ].
    simpl. rewrite (Hnone r (or_introl eq_refl)). apply IH.
    intros r' Hr'. apply Hnone. right. exact Hr'. }
  assert (Htable : forall metric, table_of metric = Ok []).
  { intros metric.
    rewrite (create_comparison_table_unfold results_df metric baseline_label
               exog_label eemd_label rb rx rd baseline_compiles exog_compiles
               eemd_compiles).
    rewrite Hempty. reflexivity. }
  split; [ exact Htable | ]. split; [ reflexivity | ]. split; [ reflexivity | ].
  unfold create_styled_excel, build_workbook, metrics.
  rewrite (mapM_result_raise (fun metric => sheet_of metric) "RMSE" _
             (KeyError "exog_imp")).
  - reflexivity.
  - rewrite Htable. reflexivity.
Qed.


End Report.

(** The same with a baseline label free of metacharacters, where the test is
    literal containment. *)
Lemma empty_partition_report_literal (results_df : list MetricRecord)
    (output_path baseline_label exog_label eemd_label : string)
    (rx rd : Re.regex) (w : World) :
  plain baseline_label = true ->
  re_compile exog_label = Ok rx -> re_compile eemd_label = Ok rd ->
  (forall r, In r results_df -> str_in baseline_label (Model r) = false) ->
  create_styled_excel results_df output_path baseline_label exog_label
    eemd_label w = (Raise (KeyError "exog_imp"), w).
Proof.
  intros Hp Hx Hd Hnone.
  destruct (plain_label_contains baseline_label Hp) as (rb & Hb & Hs).
  eapply (empty_partition_report results_df output_path baseline_label
            exog_label eemd_label rb rx rd w Hb Hx Hd).
  intros r Hr. rewrite Hs. exact (Hnone r Hr).
Qed.


Lemma improvement_cells_styled_witness :
  exists wb w',
    create_styled_excel
      [rmse_record "ARIMA-Base" 10; rmse_record "ARIMA-Exog" 8]
      "out.xlsx" "Base" "Exog" "EEMD" {| files := ∅; stdout := [] |}
    = (Ok tt, w') /\
    files w' !! "out.xlsx" = Some wb /\
    forall ws, In ws wb -> title ws = "RMSE" ->
      exists exog_cell eemd_cell,
        cells ws !! (4%nat, 3%nat) = Some exog_cell /\
        value exog_cell = "8.000 (+20.0%)" /\
        styled exog_cell improvement_good_fill "006100" /\
        cells ws !! (4%nat, 4%nat) = Some eemd_cell /\
        value eemd_cell = "N/A" /\
        unstyled eemd_cell.
Proof.
  edestruct (improvement_cells_styled
               [rmse_record "ARIMA-Base" 10; rmse_record "ARIMA-Exog" 8]
               "out.xlsx" "Base" "Exog" "EEMD")
    as (wb & w' & Hrun & Hfile & _ & Hsheets);
    [ vm_compute; reflexivity .. | vm_compute; discriminate | ].
  exists wb, w'. split; [ exact Hrun | ]. split; [ exact Hfile | ].
  intros ws Hin Htitle.
  destruct (Hsheets ws Hin) as (table & Ht & Hcells).
  { rewrite Htitle. left. reflexivity. }
  rewrite Htitle in Ht. vm_compute in Ht. injection Ht as <-.
  destruct (Hcells 0%nat _ eq_refl)
    as (ce & cd & Hce & Hve & (Hgood & _ & _) & Hcd & Hvd & (_ & _ & Hnone)).
  exists ce, cd. cbn [Nat.add] in Hce, Hcd.
  split; [ exact Hce | ]. split; [ exact Hve | ].
  split; [ apply Hgood; vm_compute; reflexivity | ].
  split; [ exact Hcd | ]. split; [ exact Hvd | ].
  apply Hnone. left. reflexivity.
Defined.


(** * Further properties *)

(** ** calculate_improvement *)

(** Whatever the inputs, [calculate_improvement] does not raise: the guards
    on a missing or zero baseline come before both divisions, and the
    absolute value of a non-zero baseline is not zero. *)
Theorem calculate_improvement_never_raises (b c : float) (metric : string)
    (e : exn) :
  calculate_improvement b c metric <> Raise e.
Proof.
  destruct (calculate_improvement_total b c metric) as [x ->]. discriminate.
Qed.

Lemma fsub_diag (s : bool) (m : positive) (e : Z) :
  fsub (S754_finite s m e) (S754_finite s m e) = S754_zero false.
Proof.
  unfold fsub, SFsub. cbv zeta. rewrite Z.sub_diag. reflexivity.
Qed.

(** A comparison equal to a finite, non-zero baseline gives a zero
    improvement: printed "+0.0", or "-0.0" when the baseline is negative and
    the metric is not R2, and neither positive nor negative. *)
Theorem equal_values_zero_improvement (b : float) (metric : string) :
  is_finite b = true -> feqb b fzero = false ->
  exists z,
    calculate_improvement b b metric = Ok z /\
    is_zero z = true /\
    fltb fzero z = false /\ fltb z fzero = false /\
    format_f true 1 z =
      if negb (String.eqb metric "R2") && is_negative b
      then "-0.0" else "+0.0".
Proof.
  intros Hfin Hz.
  destruct b as [s|s| |s m e]; try discriminate.
  rewrite calculate_improvement_defined by (reflexivity || assumption).
  rewrite fsub_diag.
  assert (H100 : exists m' e', of_Z 100 = S754_finite false m' e').
  { eexists _, _. vm_compute. reflexivity. }
  destruct H100 as (m' & e' & ->).
  destruct (String.eqb metric "R2"); eexists; (split; [ reflexivity | ]);
    destruct s; repeat split; vm_compute; reflexivity.
Qed.

Lemma equal_values_zero_improvement_witness :
  exists z,
    calculate_improvement (of_Z (-100)) (of_Z (-100)) "AIC" = Ok z /\
    is_zero z = true /\ format_f true 1 z = "-0.0".
Proof.
  destruct (equal_values_zero_improvement (of_Z (-100)) "AIC")
    as (z & Hz & Hzero & _ & _ & Hfmt); [ reflexivity | reflexivity | ].
  exists z. split; [ exact Hz | ]. split; [ exact Hzero | exact Hfmt ].
Defined.

(** ** The bare model name *)

Lemma replace_from_absent (old new s : string) :
  str_in old s = false -> replace_from old new 0 s = s.
Proof.
  induction s as [|c s IH]; intros H; [ reflexivity | ].
  cbn [str_in] in H. apply orb_false_elim in H as [Hp Hs].
  cbn [replace_from]. rewrite Hp, (IH Hs). reflexivity.
Qed.

Lemma prefix_dash (p s : string) (c : ascii) :
  Ascii.eqb c "-" = false -> String.prefix (String "-" p) (String c s) = false.
Proof.
  intros Hc. cbn [String.prefix].
  destruct (ascii_dec "-" c) as [<-|]; [ discriminate | reflexivity ].
Qed.

Lemma str_in_no_dash (name p t : string) :
  no_dash name = true ->
  str_in (String "-" p) (name +:+ t) = str_in (String "-" p) t.
Proof.
  induction name as [|c name IH]; intros H; [ reflexivity | ].
  cbn [no_dash] in H. apply andb_prop in H as [Hc Hn].
  apply negb_true_iff in Hc.
  change (String c name +:+ t) with (String c (name +:+ t)).
  cbn [str_in]. rewrite (prefix_dash p _ c Hc), (IH Hn). reflexivity.
Qed.

Lemma str_in_no_dash_name (name p : string) :
  no_dash name = true -> str_in (String "-" p) name = false.
Proof.
  induction name as [|c name IH]; intros H; [ reflexivity | ].
  cbn [no_dash] in H. apply andb_prop in H as [Hc Hn].
  apply negb_true_iff in Hc.
  cbn [str_in]. rewrite (prefix_dash p _ c Hc), (IH Hn). reflexivity.
Qed.

Lemma prefix_refl (s : string) : String.prefix s s = true.
Proof.
  induction s as [|c s IH]; [ reflexivity | ].
  cbn [String.prefix]. destruct (ascii_dec c c); [ exact IH | congruence ].
Qed.

Lemma replace_from_skip (old new s : string) :
  replace_from old new (String.length s) s = "".
Proof. induction s as [|c s IH]; [ reflexivity | exact IH ]. Qed.

Lemma replace_from_suffix (name l : string) :
  no_dash name = true ->
  replace_from (String "-" l) "" 0 (name +:+ String "-" l) = name.
Proof.
  induction name as [|c name IH]; intros H.
  - change ("" +:+ String "-" l) with (String "-" l).
    cbn [replace_from]. rewrite prefix_refl.
    replace (String.length (String "-" l) - 1)%nat with (String.length l)
      by (cbn [String.length]; lia).
    rewrite replace_from_skip. reflexivity.
  - cbn [no_dash] in H. apply andb_prop in H as [Hc Hn].
    apply negb_true_iff in Hc.
    change (String c name +:+ String "-" l)
      with (String c (name +:+ String "-" l)).
    cbn [replace_from]. rewrite (prefix_dash l _ c Hc), (IH Hn). reflexivity.
Qed.

(** A [Model] string in which no dash-prefixed label occurs is kept whole as
    the model name. *)
Theorem model_name_without_label (baseline_label exog_label eemd_label : string)
    (r : MetricRecord) :
  str_in ("-" +:+ baseline_label) (Model r) = false ->
  str_in ("-" +:+ exog_label) (Model r) = false ->
  str_in ("-" +:+ eemd_label) (Model r) = false ->
  ModelName (add_ModelName baseline_label exog_label eemd_label r) = Model r.
Proof.
  intros Hb Hx Hd. unfold add_ModelName, str_replace. cbn [ModelName].
  rewrite (replace_from_absent _ _ _ Hb), (replace_from_absent _ _ _ Hx).
  apply replace_from_absent, Hd.
Qed.

Lemma model_name_without_label_witness :
  ModelName (add_ModelName "Base" "Exog" "EEMD" (rmse_record "Naive" 3))
  = "Naive".
Proof.
  apply (model_name_without_label "Base" "Exog" "EEMD"
           (rmse_record "Naive" 3)); reflexivity.
Defined.

(** The three records of a model share their model name: for a name without
    a dash, "name-label" is stripped back to the name, for the baseline label
    always, for the exogenous label when "-baseline" does not occur in
    "-exogenous", and for the EEMD label when neither of the other two
    dash-prefixed labels occurs in "-eemd". *)
Theorem model_name_recovered (baseline_label exog_label eemd_label name : string)
    (values : string -> float) :
  no_dash name = true ->
  let named label :=
    ModelName (add_ModelName baseline_label exog_label eemd_label
                 {| Model := name +:+ "-" +:+ label;
                    metric_value := values |}) in
  named baseline_label = name /\
  (str_in ("-" +:+ baseline_label) ("-" +:+ exog_label) = false ->
   named exog_label = name) /\
  (str_in ("-" +:+ baseline_label) ("-" +:+ eemd_label) = false ->
   str_in ("-" +:+ exog_label) ("-" +:+ eemd_label) = false ->
   named eemd_label = name).
Proof.
  intros Hn. cbv zeta. unfold add_ModelName, str_replace.
  cbn [ModelName Model].
  change (fun l => "-" +:+ l) with (String "-").
  assert (Habs : forall p, replace_from (String "-" p) "" 0 name = name).
  { intros p. apply replace_from_absent, str_in_no_dash_name, Hn. }
  split; [ | split ].
  - change ("-" +:+ baseline_label) with (String "-" baseline_label).
    rewrite (replace_from_suffix name baseline_label Hn).
    change ("-" +:+ exog_label) with (String "-" exog_label).
    change ("-" +:+ eemd_label) with (String "-" eemd_label).
    rewrite !Habs. reflexivity.
  - intros Hbx.
    change ("-" +:+ baseline_label) with (String "-" baseline_label) in *.
    change ("-" +:+ exog_label) with (String "-" exog_label) in *.
    change ("-" +:+ eemd_label) with (String "-" eemd_label).
    rewrite (replace_from_absent (String "-" baseline_label) ""
               (name +:+ String "-" exog_label))
      by (rewrite str_in_no_dash by exact Hn; exact Hbx).
    rewrite (replace_from_suffix name exog_label Hn), Habs. reflexivity.
  - intros Hbd Hxd.
    change ("-" +:+ baseline_label) with (String "-" baseline_label) in *.
    change ("-" +:+ exog_label) with (String "-" exog_label) in *.
    change ("-" +:+ eemd_label) with (String "-" eemd_label) in *.
    rewrite (replace_from_absent (String "-" baseline_label) ""
               (name +:+ String "-" eemd_label))
      by (rewrite str_in_no_dash by exact Hn; exact Hbd).
    rewrite (replace_from_absent (String "-" exog_label) ""
               (name +:+ String "-" eemd_label))
      by (rewrite str_in_no_dash by exact Hn; exact Hxd).
    apply (replace_from_suffix name eemd_label Hn).
Qed.

Lemma model_name_recovered_witness :
  ModelName (add_ModelName "Sales-Baseline" "Sales-Exog" "Sales-EEMD"
               (rmse_record "ARIMA-Sales-EEMD" 3)) = "ARIMA".
Proof.
  refine (proj2 (proj2 (model_name_recovered "Sales-Baseline" "Sales-Exog"
                          "Sales-EEMD" "ARIMA" _ _)) _ _); reflexivity.
Defined.

Lemma plain_label_partition_witness :
  select_contains "Base"
    (map (add_ModelName "Base" "Exog" "EEMD")
       [rmse_record "ARIMA-Base" 10; rmse_record "ARIMA-Exog" 8])
  = Ok [add_ModelName "Base" "Exog" "EEMD" (rmse_record "ARIMA-Base" 10)].
Proof.
  rewrite (plain_label_partition "Base") by reflexivity. reflexivity.
Defined.

(** ** More on the comparison table *)

Lemma unique_length (l : list string) : (length (unique l) <= length l)%nat.
Proof.
  induction l as [|x l IH]; [ reflexivity | ].
  cbn [unique length].
  pose proof (List.filter_length_le (fun y => negb (String.eqb x y))
                (unique l)) as Hf.
  change (@List.length string) with (@length string) in Hf. lia.
Qed.

Lemma first_value_absent (df : list NamedRecord) (model metric : string) :
  (forall r, In r df -> ModelName r <> model) ->
  first_value df model metric = nan.
Proof.
  intros Hnone. unfold first_value.
  destruct (List.filter (fun r => String.eqb (ModelName r) model) df)
    as [|r rest] eqn:E; [ reflexivity | ].
  assert (Hin : In r (List.filter (fun r => String.eqb (ModelName r) model) df))
    by (rewrite E; left; reflexivity).
  apply filter_In in Hin as [Hin Heq]. apply String.eqb_eq in Heq.
  destruct (Hnone r Hin Heq).
Qed.

Lemma first_value_first (l1 l2 : list NamedRecord) (r : NamedRecord)
    (metric : string) :
  (forall r', In r' l1 -> ModelName r' <> ModelName r) ->
  first_value (l1 ++ r :: l2)%list (ModelName r) metric
  = metric_value (record r) metric.
Proof.
  intros Hnone. unfold first_value. rewrite List.filter_app.
  assert (Hl1 : List.filter (fun r0 => String.eqb (ModelName r0) (ModelName r))
                  l1 = []).
  { induction l1 as [|a l1 IH]; [ reflexivity | ].
    cbn [List.filter].
    destruct (String.eqb_spec (ModelName a) (ModelName r)) as [Heq|_].
    - destruct (Hnone a (or_introl eq_refl) Heq).
    - apply IH. intros r' Hr'. apply Hnone. right. exact Hr'. }
  rewrite Hl1. cbn [List.filter app]. rewrite String.eqb_refl. reflexivity.
Qed.

Section ComparisonTableMore.

Context `{RegexEngine}.

Variable results_df : list MetricRecord.
Variables baseline_label exog_label eemd_label : string.
Variables rb rx rd : pattern.

Hypothesis baseline_compiles : re_compile baseline_label = Ok rb.
Hypothesis exog_compiles : re_compile exog_label = Ok rx.
Hypothesis eemd_compiles : re_compile eemd_label = Ok rd.

Local Abbreviation named :=
  (map (add_ModelName baseline_label exog_label eemd_label) results_df).
Local Abbreviation baseline_df := (scenario_partition rb named).
Local Abbreviation exog_df := (scenario_partition rx named).
Local Abbreviation eemd_df := (scenario_partition rd named).
Local Abbreviation table_of metric :=
  (create_comparison_table results_df metric baseline_label exog_label
     eemd_label).

(** The rows of a table against the loop body that made them. *)
Lemma table_rows_made (metric : string) :
  exists table,
    table_of metric = Ok table /\
    map row_Model table = unique (map ModelName baseline_df) /\
    forall row, In row table ->
      comparison_row baseline_df exog_df eemd_df metric (row_Model row)
      = Ok row.
Proof.
  destruct (create_comparison_table_rows results_df metric baseline_label
              exog_label eemd_label rb rx rd baseline_compiles exog_compiles
              eemd_compiles) as (table & Ht & Hall).
  destruct (create_comparison_table_names results_df metric baseline_label
              exog_label eemd_label rb rx rd baseline_compiles exog_compiles
              eemd_compiles) as (table' & Ht' & Hnames).
  assert (table' = table) as -> by congruence.
  exists table. split; [ exact Ht | ]. split; [ exact Hnames | ].
  intros row Hin. clear Ht Ht' Hnames.
  induction Hall as [|model r names rows Hr _ IH]; [ destruct Hin | ].
  destruct Hin as [<- | Hin]; [ | exact (IH Hin) ].
  destruct (comparison_row_ok baseline_df exog_df eemd_df metric model)
    as (row' & Hrow' & Hm & _).
  assert (row' = r) as -> by congruence.
  rewrite Hm. exact Hr.
Qed.

(** The tables of two metrics list the same models in the same order, so
    the six metric sheets have the same rows; a table has at most one row per
    input record. *)
Theorem tables_share_rows (metric1 metric2 : string) :
  exists table1 table2,
    create_comparison_table results_df metric1 baseline_label exog_label
      eemd_label = Ok table1 /\
    create_comparison_table results_df metric2 baseline_label exog_label
      eemd_label = Ok table2 /\
    map row_Model table1 = map row_Model table2 /\
    (length table1 <= length results_df)%nat.
Proof.
  destruct (table_rows_made metric1) as (t1 & Ht1 & Hn1 & _).
  destruct (table_rows_made metric2) as (t2 & Ht2 & Hn2 & _).
  exists t1, t2. split; [ exact Ht1 | ]. split; [ exact Ht2 | ].
  split; [ congruence | ].
  rewrite <- (length_map row_Model t1), Hn1.
  etransitivity; [ apply unique_length | ].
  rewrite length_map. unfold scenario_partition.
  etransitivity; [ apply List.filter_length_le | ].
  rewrite length_map. reflexivity.
Qed.

(** A model without a record in the exogenous partition has "N/A" in the
    exogenous column and an undefined exogenous improvement; likewise for
    the EEMD partition. *)
Theorem missing_scenario_not_applicable (metric : string) :
  exists table,
    table_of metric = Ok table /\
    forall row, In row table ->
      ((forall r, In r exog_df -> ModelName r <> row_Model row) ->
       Exogenous row = "N/A" /\ exog_imp row = nan) /\
      ((forall r, In r eemd_df -> ModelName r <> row_Model row) ->
       EEMD row = "N/A" /\ eemd_imp row = nan).
Proof.
  destruct (table_rows_made metric) as (table & Ht & _ & Hrows).
  exists table. split; [ exact Ht | ].
  intros row Hin.
  destruct (comparison_row_ok baseline_df exog_df eemd_df metric
              (row_Model row)) as (row' & Hrow' & _ & He & Hd & _ & Hes & Hds).
  rewrite (Hrows row Hin) in Hrow'. injection Hrow' as <-.
  split; intros Hnone.
  - rewrite (first_value_absent _ _ metric Hnone) in He, Hes.
    rewrite calculate_improvement_nan in He
      by (right; left; reflexivity).
    injection He as He. split; [ rewrite Hes; reflexivity | congruence ].
  - rewrite (first_value_absent _ _ metric Hnone) in Hd, Hds.
    rewrite calculate_improvement_nan in Hd
      by (right; left; reflexivity).
    injection Hd as Hd. split; [ rewrite Hds; reflexivity | congruence ].
Qed.

(** Duplicates are not merged: when several records of a partition carry
    the same model name, the row shows the value of the first of them. *)
Theorem first_record_wins (metric : string) :
  exists table,
    table_of metric = Ok table /\
    forall l1 r l2,
      (forall r', In r' l1 -> ModelName r' <> ModelName r) ->
      (baseline_df = (l1 ++ r :: l2)%list ->
       exists row,
         In row table /\ row_Model row = ModelName r /\
         Baseline row = spec_display (metric_value (record r) metric) nan) /\
      (forall row, In row table -> row_Model row = ModelName r ->
         (exog_df = (l1 ++ r :: l2)%list ->
          Exogenous row
          = spec_display (metric_value (record r) metric) (exog_imp row)) /\
         (eemd_df = (l1 ++ r :: l2)%list ->
          EEMD row
          = spec_display (metric_value (record r) metric) (eemd_imp row))).
Proof.
  destruct (table_rows_made metric) as (table & Ht & Hnames & Hrows).
  exists table. split; [ exact Ht | ].
  intros l1 r l2 Hfirst.
  assert (Hfacts : forall row, In row table ->
            Baseline row
            = spec_display (first_value baseline_df (row_Model row) metric)
                nan /\
            Exogenous row
            = spec_display (first_value exog_df (row_Model row) metric)
                (exog_imp row) /\
            EEMD row
            = spec_display (first_value eemd_df (row_Model row) metric)
                (eemd_imp row)).
  { intros row Hin.
    destruct (comparison_row_ok baseline_df exog_df eemd_df metric
                (row_Model row)) as (row' & Hrow' & _ & _ & _ & Hb & He & Hd).
    rewrite (Hrows row Hin) in Hrow'. injection Hrow' as <-. auto. }
  split.
  - intros Hsplit.
    assert (Hname : In (ModelName r) (map row_Model table)).
    { rewrite Hnames, unique_In, Hsplit, map_app. apply in_or_app. right.
      left. reflexivity. }
    apply in_map_iff in Hname as (row & Hm & Hin).
    exists row. split; [ exact Hin | ]. split; [ exact Hm | ].
    destruct (Hfacts row Hin) as (Hb & _).
    rewrite Hb, Hm, Hsplit. rewrite (first_value_first l1 l2 r metric Hfirst).
    reflexivity.
  - intros row Hin Hm. destruct (Hfacts row Hin) as (_ & He & Hd).
    split; intros Hsplit.
    + rewrite He, Hm, Hsplit, (first_value_first l1 l2 r metric Hfirst).
      reflexivity.
    + rewrite Hd, Hm, Hsplit, (first_value_first l1 l2 r metric Hfirst).
      reflexivity.
Qed.

End ComparisonTableMore.

Lemma tables_share_rows_witness :
  exists table1 table2,
    create_comparison_table
      [rmse_record "ARIMA-Base" 10; rmse_record "ARIMA-Exog" 8]
      "RMSE" "Base" "Exog" "EEMD" = Ok table1 /\
    create_comparison_table
      [rmse_record "ARIMA-Base" 10; rmse_record "ARIMA-Exog" 8]
      "MAE" "Base" "Exog" "EEMD" = Ok table2 /\
    map row_Model table1 = map row_Model table2.
Proof.
  edestruct (tables_share_rows
               [rmse_record "ARIMA-Base" 10; rmse_record "ARIMA-Exog" 8]
               "Base" "Exog" "EEMD")
    as (t1 & t2 & H1 & H2 & Hsame & _); [ vm_compute; reflexivity .. | ].
  exists t1, t2. split; [ exact H1 | ]. split; [ exact H2 | exact Hsame ].
Defined.

Lemma missing_scenario_not_applicable_witness :
  exists table,
    create_comparison_table
      [rmse_record "ARIMA-Base" 10; rmse_record "SVR-Exog" 8]
      "RMSE" "Base" "Exog" "EEMD" = Ok table /\
    forall row, In row table -> Exogenous row = "N/A" /\ EEMD row = "N/A".
Proof.
  edestruct (missing_scenario_not_applicable
               [rmse_record "ARIMA-Base" 10; rmse_record "SVR-Exog" 8]
               "Base" "Exog" "EEMD")
    as (table & Ht & Hrows); [ vm_compute; reflexivity .. | ].
  exists table. split; [ exact Ht | ].
  intros row Hin. destruct (Hrows row Hin) as (Hx & Hd).
  vm_compute in Ht. injection Ht as <-. destruct Hin as [<- | []].
  split.
  - apply Hx. intros r [<- | []]. vm_compute. discriminate.
  - apply Hd. intros r [].
Defined.

Lemma first_record_wins_witness :
  exists table,
    create_comparison_table
      [rmse_record "ARIMA-Base" 10; rmse_record "ARIMA-Base" 12]
      "RMSE" "Base" "Exog" "EEMD" = Ok table /\
    exists row, In row table /\ Baseline row = "10.000".
Proof.
  edestruct (first_record_wins
               [rmse_record "ARIMA-Base" 10; rmse_record "ARIMA-Base" 12]
               "Base" "Exog" "EEMD")
    as (table & Ht & Hfirst); [ vm_compute; reflexivity .. | ].
  exists table. split; [ exact Ht | ].
  destruct (Hfirst []
              (add_ModelName "Base" "Exog" "EEMD" (rmse_record "ARIMA-Base" 10))
              [add_ModelName "Base" "Exog" "EEMD"
                 (rmse_record "ARIMA-Base" 12)])
    as (Hb & _); [ intros r' [] | ].
  destruct Hb as (row & Hin & _ & Hbase); [ vm_compute; reflexivity | ].
  exists row. split; [ exact Hin | ]. rewrite Hbase. vm_compute. reflexivity.
Defined.

(** ** Errors and effects of the report *)

Lemma filter_nil_all {A : Type} (f : A -> bool) (l : list A) :
  List.filter f l = [] -> forall x, In x l -> f x = false.
Proof.
  induction l as [|a l IH]; intros Hnil x Hin; [ destruct Hin | ].
  cbn [List.filter] in Hnil. destruct (f a) eqn:Fa; [ discriminate | ].
  destruct Hin as [<- | Hin]; [ exact Fa | exact (IH Hnil x Hin) ].
Qed.

Section ReportEffects.

Context `{RegexEngine}.

Variable results_df : list MetricRecord.
Variables output_path baseline_label exog_label eemd_label : string.
Variable w : World.

(** A label that [re.compile] rejects makes every table, and the report,
    raise that error, the labels being compiled in the order baseline,
    exogenous, EEMD; no file is written. *)
Theorem invalid_label_raises (e : exn) :
  re_compile baseline_label = Raise e \/
  (exists rb, re_compile baseline_label = Ok rb /\
              re_compile exog_label = Raise e) \/
  (exists rb rx, re_compile baseline_label = Ok rb /\
                 re_compile exog_label = Ok rx /\
                 re_compile eemd_label = Raise e) ->
  (forall metric,
     create_comparison_table results_df metric baseline_label exog_label
       eemd_label = Raise e) /\
  create_styled_excel results_df output_path baseline_label exog_label
    eemd_label w = (Raise e, w).
Proof.
  intros Hbad.
  assert (Htable : forall metric,
            create_comparison_table results_df metric baseline_label
              exog_label eemd_label = Raise e).
  { intros metric. unfold create_comparison_table, select_contains.
    destruct Hbad as [Hb | [(rb & Hb & Hx) | (rb & rx & Hb & Hx & Hd)]].
    - rewrite Hb. reflexivity.
    - rewrite Hb, Hx. reflexivity.
    - rewrite Hb, Hx, Hd. reflexivity. }
  split; [ exact Htable | ].
  unfold create_styled_excel, build_workbook, metrics.
  rewrite (mapM_result_raise
             (fun metric =>
                comparison_df ← create_comparison_table results_df metric
                                  baseline_label exog_label eemd_label;
                metric_sheet metric comparison_df) "RMSE" _ e).
  - reflexivity.
  - rewrite Htable. reflexivity.
Qed.

Variables rb rx rd : pattern.

Hypothesis baseline_compiles : re_compile baseline_label = Ok rb.
Hypothesis exog_compiles : re_compile exog_label = Ok rx.
Hypothesis eemd_compiles : re_compile eemd_label = Ok rd.

Local Abbreviation named :=
  (map (add_ModelName baseline_label exog_label eemd_label) results_df).
Local Abbreviation baseline_df := (scenario_partition rb named).

(** With labels that compile, the report is written exactly when the
    baseline partition is not empty.  It then saves one workbook of seven
    sheets, the summary first, under the output path, replacing what was
    there and leaving every other file alone, and prints one confirmation
    line; otherwise it raises the missing-column error and changes nothing. *)
Theorem report_written_or_nothing :
  (baseline_df <> [] ->
   exists wb,
     create_styled_excel results_df output_path baseline_label exog_label
       eemd_label w
     = (Ok tt,
        {| files := <[output_path := wb]> (files w);
           stdout := (stdout w ++ [confirmation output_path])%list |}) /\
     map title wb = "Summary" :: metrics /\
     (forall p, p <> output_path ->
        (<[output_path := wb]> (files w)) !! p = files w !! p)) /\
  (baseline_df = [] ->
   create_styled_excel results_df output_path baseline_label exog_label
     eemd_label w = (Raise (KeyError "exog_imp"), w)).
Proof.
  split.
  - intros Hne.
    destruct (metric_sheets results_df output_path baseline_label exog_label
                eemd_label rb rx rd w baseline_compiles exog_compiles
                eemd_compiles Hne) as (wb & Hrun & Htitles & _).
    exists wb. split; [ exact Hrun | ]. split; [ exact Htitles | ].
    intros p Hp. apply lookup_insert_ne. congruence.
  - intros Hempty.
    eapply (empty_partition_report results_df output_path baseline_label
              exog_label eemd_label rb rx rd w baseline_compiles
              exog_compiles eemd_compiles).
    intros r Hr.
    apply (filter_nil_all _ _ Hempty
             (add_ModelName baseline_label exog_label eemd_label r)).
    apply in_map. exact Hr.
Qed.

End ReportEffects.

Lemma invalid_label_raises_witness :
  create_styled_excel [rmse_record "ARIMA-Base(1)" 10] "out.xlsx" "Base(1"
    "Exog" "EEMD" {| files := ∅; stdout := [] |}
  = (Raise (ReError "Base(1"), {| files := ∅; stdout := [] |}).
Proof.
  eapply (invalid_label_raises [rmse_record "ARIMA-Base(1)" 10] "out.xlsx"
            "Base(1" "Exog" "EEMD").
  left. vm_compute. reflexivity.
Defined.

Lemma report_written_or_nothing_witness :
  exists wb,
    create_styled_excel
      [rmse_record "ARIMA-Base" 10; rmse_record "ARIMA-Exog" 8]
      "out.xlsx" "Base" "Exog" "EEMD"
      {| files := {[ "old.xlsx" := [] ]}; stdout := [] |}
    = (Ok tt,
       {| files := <["out.xlsx" := wb]> {[ "old.xlsx" := [] ]};
          stdout := [confirmation "out.xlsx"] |}) /\
    length wb = 7%nat.
Proof.
  edestruct (report_written_or_nothing
               [rmse_record "ARIMA-Base" 10; rmse_record "ARIMA-Exog" 8]
               "out.xlsx" "Base" "Exog" "EEMD"
               {| files := {[ "old.xlsx" := [] ]}; stdout := [] |})
    as (Hyes & _); [ vm_compute; reflexivity .. | ].
  destruct Hyes as (wb & Hrun & Htitles & _); [ vm_compute; discriminate | ].
  exists wb. split; [ exact Hrun | ].
  rewrite <- (length_map title wb), Htitles. reflexivity.
Defined.

(** ** Layout of a metric sheet *)

Lemma metric_sheet_cons (metric : string) (x : ComparisonRow)
    (t : list ComparisonRow) :
  metric_sheet metric (x :: t) =
  Ok (set_width "D" 25 (set_width "C" 25 (set_width "B" 15 (set_width "A" 20
       (ws_cell (length (x :: t) + 5) 4
          (format_f true 2 (Series_mean (map eemd_imp (x :: t))) +:+ "%")
       (ws_cell (length (x :: t) + 5) 3
          (format_f true 2 (Series_mean (map exog_imp (x :: t))) +:+ "%")
       (ws_cell (length (x :: t) + 5) 2 "Baseline"
       (set_font (length (x :: t) + 5) 1 font_bold
       (ws_cell (length (x :: t) + 5) 1 "Average Improvement:"
       (fold_left data_row (enumerate 4 (x :: t))
       (fold_left header_cell
          (enumerate 1 ["Model"; "Baseline"; "Exogenous (Δ%)"; "EEMD (Δ%)"])
       (merge_cells "A1:E1"
       (set_font 1 1 {| color := None; bold := true; size := Some 14 |}
       (ws_cell 1 1 (metric +:+ " Comparison: Baseline vs Exogenous vs EEMD")
          (new_sheet metric))))))))))))))).
Proof. reflexivity. Qed.

(** The sheet before the data rows: title and header row. *)
Lemma header_sheet_cells (metric : string) (r c : nat) :
  cells (fold_left header_cell
           (enumerate 1 ["Model"; "Baseline"; "Exogenous (Δ%)"; "EEMD (Δ%)"])
           (merge_cells "A1:E1"
              (set_font 1 1 {| color := None; bold := true; size := Some 14 |}
                 (ws_cell 1 1
                    (metric +:+ " Comparison: Baseline vs Exogenous vs EEMD")
                    (new_sheet metric))))) !! (r, c)
  = if decide (r = 1 /\ c = 1)%nat then
      Some {| value := metric +:+ " Comparison: Baseline vs Exogenous vs EEMD";
              fill := None;
              font := Some {| color := None; bold := true; size := Some 14 |};
              alignment := None; border := None |}
    else if decide (r = 3 /\ 1 <= c <= 4)%nat then
      header_styled <$>
        ["Model"; "Baseline"; "Exogenous (Δ%)"; "EEMD (Δ%)"] !! (c - 1)%nat
    else None.
Proof.
  generalize (metric +:+ " Comparison: Baseline vs Exogenous vs EEMD").
  intros heading.
  destruct (decide (r = 1 /\ c = 1)%nat) as [[-> ->]|Hne1].
  { vm_compute. reflexivity. }
  destruct (decide (r = 3 /\ 1 <= c <= 4)%nat) as [[-> Hc]|Hne3].
  { assert (c = 1 \/ c = 2 \/ c = 3 \/ c = 4)%nat as [-> | [-> | [-> | ->]]]
      by lia; vm_compute; reflexivity. }
  cbn [fold_left enumerate]. unfold header_cell.
  cells_other. cbn [merge_cells cells]. cells_other. apply lookup_empty.
Qed.

Lemma set_font_same r c x ws :
  cells (set_font r c x ws) !! (r, c)
  = (fun cl => {| value := value cl; fill := fill cl; font := Some x;
                  alignment := alignment cl; border := border cl |})
    <$> cells ws !! (r, c).
Proof. apply alter_cells_same. Qed.

Lemma set_fill_same r c x ws :
  cells (set_fill r c x ws) !! (r, c)
  = (fun cl => {| value := value cl; fill := Some x; font := font cl;
                  alignment := alignment cl; border := border cl |})
    <$> cells ws !! (r, c).
Proof. apply alter_cells_same. Qed.

Lemma set_alignment_same r c x ws :
  cells (set_alignment r c x ws) !! (r, c)
  = (fun cl => {| value := value cl; fill := fill cl; font := font cl;
                  alignment := Some x; border := border cl |})
    <$> cells ws !! (r, c).
Proof. apply alter_cells_same. Qed.

Lemma set_border_same r c x ws :
  cells (set_border r c x ws) !! (r, c)
  = (fun cl => {| value := value cl; fill := fill cl; font := font cl;
                  alignment := alignment cl; border := Some x |})
    <$> cells ws !! (r, c).
Proof. apply alter_cells_same. Qed.

Lemma ws_cell_new (r c : nat) (v : string) (ws : Worksheet) :
  cells ws !! (r, c) = None ->
  cells (ws_cell r c v ws) !! (r, c) = Some (new_cell v).
Proof.
  intros Hnone. destruct (ws_cell_same r c v ws) as (cl & -> & _ & Hnew).
  rewrite (Hnew Hnone). reflexivity.
Qed.

Lemma data_row_columns (ws : Worksheet) (r : nat) (x : ComparisonRow) :
  (forall c, cells ws !! (r, c) = None) ->
  cells (data_row ws (r, x)) !! (r, 1%nat)
    = Some (model_name_cell (row_Model x)) /\
  cells (data_row ws (r, x)) !! (r, 2%nat)
    = Some (bordered_centered (Baseline x)) /\
  forall c, ~ (1 <= c <= 4)%nat -> cells (data_row ws (r, x)) !! (r, c) = None.
Proof.
  intros Hfree. unfold data_row. split; [ | split ].
  - cells_other. rewrite set_font_same, set_border_same.
    rewrite ws_cell_new by apply Hfree. reflexivity.
  - cells_other. rewrite set_alignment_same, set_border_same.
    rewrite ws_cell_new by (cells_other; apply Hfree). reflexivity.
  - intros c Hc. cells_other. apply Hfree.
Qed.

Lemma data_rows_lookup (l : list ComparisonRow) (s : nat) (ws : Worksheet)
    (i : nat) (x : ComparisonRow) :
  (forall r c, (s <= r)%nat -> cells ws !! (r, c) = None) ->
  l !! i = Some x ->
  exists ws',
    (forall c, cells ws' !! ((s + i)%nat, c) = None) /\
    forall c,
      cells (fold_left data_row (enumerate s l) ws) !! ((s + i)%nat, c)
      = cells (data_row ws' ((s + i)%nat, x)) !! ((s + i)%nat, c).
Proof.
  revert s ws i. induction l as [|y l IH]; intros s ws i Hfree Hi.
  - discriminate.
  - destruct i as [|i]; simpl in Hi.
    + injection Hi as ->. exists ws. rewrite Nat.add_0_r.
      split; [ intros c; apply Hfree; lia | ].
      intros c. cbn [fold_left enumerate].
      apply data_rows_outside. simpl. lia.
    + replace (s + S i)%nat with (S s + i)%nat by lia.
      cbn [fold_left enumerate].
      apply IH; [ | exact Hi ].
      intros r c Hr. rewrite data_row_other by (simpl; lia).
      apply Hfree. lia.
Qed.

Lemma color_code_frame r c imp ws :
  merged_cells (color_code r c imp ws) = merged_cells ws /\
  column_width (color_code r c imp ws) = column_width ws.
Proof.
  unfold color_code. destruct (negb (pd_isna imp)); [ | auto ].
  destruct (fltb fzero imp); [ auto | ].
  destruct (fltb imp fzero); auto.
Qed.

Lemma data_row_frame ws r :
  merged_cells (data_row ws r) = merged_cells ws /\
  column_width (data_row ws r) = column_width ws.
Proof.
  destruct r as [r x].
  unfold data_row, set_alignment, set_border, set_font, ws_cell.
  split.
  - repeat first [ rewrite (proj1 (color_code_frame _ _ _ _))
                 | progress cbn [merged_cells with_cells] ].
    reflexivity.
  - repeat first [ rewrite (proj2 (color_code_frame _ _ _ _))
                 | progress cbn [column_width with_cells] ].
    reflexivity.
Qed.

Lemma data_rows_frame (l : list ComparisonRow) (s : nat) (ws : Worksheet) :
  merged_cells (fold_left data_row (enumerate s l) ws) = merged_cells ws /\
  column_width (fold_left data_row (enumerate s l) ws) = column_width ws.
Proof.
  revert s ws. induction l as [|x l IH]; intros s ws; [ auto | ].
  cbn [fold_left enumerate].
  destruct (IH (S s) (data_row ws (s, x))) as [-> ->].
  apply data_row_frame.
Qed.

Lemma Ok_inj {A : Type} (a b : A) : Ok a = Ok b -> a = b.
Proof. intros [= ->]. reflexivity. Qed.

(** Every cell of the sheet [metric_sheet] returns. *)
Lemma metric_sheet_cells (metric : string) (table : list ComparisonRow)
    (ws : Worksheet) :
  metric_sheet metric table = Ok ws ->
  let n := length table in
  cells ws !! (1%nat, 1%nat)
    = Some {| value := metric +:+ " Comparison: Baseline vs Exogenous vs EEMD";
              fill := None;
              font := Some {| color := None; bold := true; size := Some 14 |};
              alignment := None; border := None |} /\
  (forall c h,
     ["Model"; "Baseline"; "Exogenous (Δ%)"; "EEMD (Δ%)"] !! c = Some h ->
     cells ws !! (3%nat, S c) = Some (header_styled h)) /\
  (forall i row, table !! i = Some row ->
     cells ws !! ((4 + i)%nat, 1%nat) = Some (model_name_cell (row_Model row)) /\
     cells ws !! ((4 + i)%nat, 2%nat)
       = Some (bordered_centered (Baseline row))) /\
  cells ws !! ((n + 5)%nat, 1%nat)
    = Some {| value := "Average Improvement:"; fill := None;
              font := Some font_bold; alignment := None; border := None |} /\
  cells ws !! ((n + 5)%nat, 2%nat) = Some (new_cell "Baseline") /\
  cells ws !! ((n + 5)%nat, 3%nat)
    = Some (new_cell (format_f true 2 (Series_mean (map exog_imp table))
                      +:+ "%")) /\
  cells ws !! ((n + 5)%nat, 4%nat)
    = Some (new_cell (format_f true 2 (Series_mean (map eemd_imp table))
                      +:+ "%")) /\
  (forall r c, is_Some (cells ws !! (r, c)) <-> in_layout n r c) /\
  merged_cells ws = ["A1:E1"] /\
  column_width ws
    = <["D" := 25]> (<["C" := 25]> (<["B" := 15]> (<["A" := 20]> ∅))).
Proof.
  intros Hws. destruct table as [|x t]; [ discriminate Hws | ].
  rewrite metric_sheet_cons in Hws. apply Ok_inj in Hws. subst ws.
  remember (x :: t) as table eqn:Etable. clear Etable x t.
  cbv zeta. remember (length table) as n eqn:En.
  set (v3 := format_f true 2 (Series_mean (map exog_imp table)) +:+ "%").
  set (v4 := format_f true 2 (Series_mean (map eemd_imp table)) +:+ "%").
  match goal with
  | |- context [fold_left data_row _ ?w] => set (WH := w)
  end.
  set (WD := fold_left data_row (enumerate 4 table) WH).
  assert (HWH : forall r c, (4 <= r)%nat -> cells WH !! (r, c) = None).
  { intros r c Hr. unfold WH. rewrite header_sheet_cells.
    repeat case_decide; try lia. reflexivity. }
  assert (Habove : forall r c, (4 + n <= r)%nat -> cells WD !! (r, c) = None).
  { intros r c Hr. unfold WD. rewrite data_rows_outside by (simpl; lia).
    apply HWH. lia. }
  assert (Hbelow : forall r c, (r < 4)%nat ->
            cells WD !! (r, c) = cells WH !! (r, c)).
  { intros r c Hr. unfold WD. apply data_rows_outside. simpl. lia. }
  assert (Hdata : forall i row, table !! i = Some row ->
            cells WD !! ((4 + i)%nat, 1%nat)
              = Some (model_name_cell (row_Model row)) /\
            cells WD !! ((4 + i)%nat, 2%nat)
              = Some (bordered_centered (Baseline row)) /\
            is_Some (cells WD !! ((4 + i)%nat, 3%nat)) /\
            is_Some (cells WD !! ((4 + i)%nat, 4%nat)) /\
            forall c, ~ (1 <= c <= 4)%nat ->
                      cells WD !! ((4 + i)%nat, c) = None).
  { intros i row Hi.
    destruct (data_rows_lookup table 4 WH i row HWH Hi) as (ws' & Hfree & Heq).
    destruct (data_row_columns ws' (4 + i) row Hfree) as (H1 & H2 & Hout).
    destruct (data_row_cells ws' (4 + i) row (Hfree _) (Hfree _))
      as (ce & cd & Hce & _ & _ & Hcd & _).
    unfold WD. rewrite !Heq, H1, H2, Hce, Hcd.
    repeat split; eauto. intros c Hc. rewrite Heq. apply Hout, Hc. }
  assert (Hother : forall r c, r <> (n + 5)%nat ->
            cells (ws_cell (n + 5) 4 v4 (ws_cell (n + 5) 3 v3
                     (ws_cell (n + 5) 2 "Baseline"
                        (set_font (n + 5) 1 font_bold
                           (ws_cell (n + 5) 1 "Average Improvement:" WD)))))
              !! (r, c)
            = cells WD !! (r, c)).
  { intros r c Hr. cells_other. reflexivity. }
  assert (Hs1 : cells (ws_cell (n + 5) 4 v4 (ws_cell (n + 5) 3 v3
                         (ws_cell (n + 5) 2 "Baseline"
                            (set_font (n + 5) 1 font_bold
                               (ws_cell (n + 5) 1 "Average Improvement:" WD)))))
                  !! ((n + 5)%nat, 1%nat)
                = Some {| value := "Average Improvement:"; fill := None;
                          font := Some font_bold; alignment := None;
                          border := None |}).
  { cells_other. rewrite set_font_same, ws_cell_new by (apply Habove; lia).
    reflexivity. }
  assert (Hs2 : cells (ws_cell (n + 5) 4 v4 (ws_cell (n + 5) 3 v3
                         (ws_cell (n + 5) 2 "Baseline"
                            (set_font (n + 5) 1 font_bold
                               (ws_cell (n + 5) 1 "Average Improvement:" WD)))))
                  !! ((n + 5)%nat, 2%nat) = Some (new_cell "Baseline")).
  { cells_other. apply ws_cell_new. cells_other. apply Habove. lia. }
  assert (Hs3 : cells (ws_cell (n + 5) 4 v4 (ws_cell (n + 5) 3 v3
                         (ws_cell (n + 5) 2 "Baseline"
                            (set_font (n + 5) 1 font_bold
                               (ws_cell (n + 5) 1 "Average Improvement:" WD)))))
                  !! ((n + 5)%nat, 3%nat) = Some (new_cell v3)).
  { cells_other. apply ws_cell_new. cells_other. apply Habove. lia. }
  assert (Hs4 : cells (ws_cell (n + 5) 4 v4 (ws_cell (n + 5) 3 v3
                         (ws_cell (n + 5) 2 "Baseline"
                            (set_font (n + 5) 1 font_bold
                               (ws_cell (n + 5) 1 "Average Improvement:" WD)))))
                  !! ((n + 5)%nat, 4%nat) = Some (new_cell v4)).
  { apply ws_cell_new. cells_other. apply Habove. lia. }
  assert (Hs0 : forall c, ~ (1 <= c <= 4)%nat ->
            cells (ws_cell (n + 5) 4 v4 (ws_cell (n + 5) 3 v3
                     (ws_cell (n + 5) 2 "Baseline"
                        (set_font (n + 5) 1 font_bold
                           (ws_cell (n + 5) 1 "Average Improvement:" WD)))))
              !! ((n + 5)%nat, c) = None).
  { intros c Hc. cells_other. apply Habove. lia. }
  rewrite !cells_set_width.
  split; [ | split; [ | split; [ | split; [ | split; [ | split; [ | split;
    [ | split; [ | split ] ] ] ] ] ] ] ].
  - rewrite Hother by lia. rewrite Hbelow by lia. unfold WH.
    rewrite header_sheet_cells. rewrite decide_True by lia. reflexivity.
  - intros c h Hc. rewrite Hother by lia. rewrite Hbelow by lia. unfold WH.
    rewrite header_sheet_cells.
    assert (c < 4)%nat by (apply lookup_lt_Some in Hc; exact Hc).
    rewrite decide_False by lia. rewrite decide_True by lia.
    replace (S c - 1)%nat with c by lia. rewrite Hc. reflexivity.
  - intros i row Hi.
    assert (i < n)%nat by (apply lookup_lt_Some in Hi; lia).
    rewrite !Hother by lia.
    destruct (Hdata i row Hi) as (H1 & H2 & _). auto.
  - exact Hs1.
  - exact Hs2.
  - exact Hs3.
  - exact Hs4.
  - intros r c. unfold in_layout.
    destruct (decide (r = n + 5)%nat) as [->|Hr].
    { destruct (decide (1 <= c <= 4)%nat) as [Hc|Hc].
      - assert (c = 1 \/ c = 2 \/ c = 3 \/ c = 4)%nat as [-> | [-> | [-> | ->]]]
          by lia; rewrite ?Hs1, ?Hs2, ?Hs3, ?Hs4;
          (split; [ intros _; right; lia | eauto ]).
      - rewrite (Hs0 c Hc). split; [ intros []; discriminate | lia ]. }
    rewrite (Hother r c Hr).
    destruct (decide (4 <= r < 4 + n)%nat) as [Hrange|Hrange].
    { destruct (lookup_lt_is_Some_2 table (r - 4)) as [row Hrow];
        [ lia | ].
      destruct (Hdata (r - 4)%nat row Hrow) as (H1 & H2 & H3 & H4 & Hout).
      replace (4 + (r - 4))%nat with r in * by lia.
      destruct (decide (1 <= c <= 4)%nat) as [Hc|Hc].
      - assert (c = 1 \/ c = 2 \/ c = 3 \/ c = 4)%nat as [-> | [-> | [-> | ->]]]
          by lia; rewrite ?H1, ?H2;
          (split; [ intros _; right; lia | eauto ]).
      - rewrite (Hout c Hc). split; [ intros []; discriminate | lia ]. }
    destruct (decide (r < 4)%nat) as [Hlow|Hhigh].
    { rewrite (Hbelow r c Hlow). unfold WH. rewrite header_sheet_cells.
      destruct (decide (r = 1 /\ c = 1)%nat) as [H1|H1].
      - split; [ intros _; left; exact H1 | eauto ].
      - destruct (decide (r = 3 /\ 1 <= c <= 4)%nat) as [[-> Hc]|H3].
        + assert (c = 1 \/ c = 2 \/ c = 3 \/ c = 4)%nat
            as [-> | [-> | [-> | ->]]] by lia;
            (split; [ intros _; right; lia | intros _; cbn; eauto ]).
        + split; [ intros []; discriminate | lia ]. }
    rewrite Habove by lia. split; [ intros []; discriminate | lia ].
  - cbn [merged_cells set_width ws_cell with_cells set_font].
    fold WD. unfold WD. rewrite (proj1 (data_rows_frame _ _ _)).
    reflexivity.
  - cbn [column_width set_width ws_cell with_cells set_font].
    fold WD. unfold WD. rewrite (proj2 (data_rows_frame _ _ _)).
    reflexivity.
Qed.

(** ** The summary sheet *)

Lemma summary_sheet_cells (m1 a1 b1 m2 a2 b2 m3 a3 b3 m4 a4 b4 m5 a5 b5
    m6 a6 b6 : string) (k : nat) (m a b : string) :
  [(m1, a1, b1); (m2, a2, b2); (m3, a3, b3); (m4, a4, b4); (m5, a5, b5);
   (m6, a6, b6)] !! k = Some (m, a, b) ->
  let ws := summary_sheet [[m1; a1; b1]; [m2; a2; b2]; [m3; a3; b3];
                           [m4; a4; b4]; [m5; a5; b5]; [m6; a6; b6]] in
  cells ws !! (1%nat, 1%nat)
    = Some {| value := "Model Performance Summary"; fill := None;
              font := Some {| color := None; bold := true; size := Some 16 |};
              alignment := None; border := None |} /\
  cells ws !! (3%nat, 1%nat) = Some (summary_header_styled "Metric") /\
  cells ws !! (3%nat, 2%nat)
    = Some (summary_header_styled "Avg Exog Improvement (%)") /\
  cells ws !! (3%nat, 3%nat)
    = Some (summary_header_styled "Avg EEMD Improvement (%)") /\
  cells ws !! ((4 + k)%nat, 1%nat) = Some (bordered_centered m) /\
  cells ws !! ((4 + k)%nat, 2%nat) = Some (bordered_centered a) /\
  cells ws !! ((4 + k)%nat, 3%nat) = Some (bordered_centered b) /\
  cells ws !! (2%nat, 1%nat) = None /\
  column_width ws = <["C" := 25]> (<["B" := 25]> (<["A" := 15]> ∅)).
Proof.
  intros Hk.
  do 6 (destruct k as [|k];
        [ injection Hk as <- <- <-; cbv zeta; repeat split;
          vm_compute; reflexivity | ]).
  discriminate.
Qed.

Section ReportLayout.

Context `{RegexEngine}.

Variable results_df : list MetricRecord.
Variables output_path baseline_label exog_label eemd_label : string.
Variables rb rx rd : pattern.
Variable w : World.

Hypothesis baseline_compiles : re_compile baseline_label = Ok rb.
Hypothesis exog_compiles : re_compile exog_label = Ok rx.
Hypothesis eemd_compiles : re_compile eemd_label = Ok rd.

Local Abbreviation named :=
  (map (add_ModelName baseline_label exog_label eemd_label) results_df).
Local Abbreviation baseline_df := (scenario_partition rb named).
Local Abbreviation table_of metric :=
  (create_comparison_table results_df metric baseline_label exog_label
     eemd_label).
Local Abbreviation sheet_of metric :=
  (comparison_df ← table_of metric; metric_sheet metric comparison_df).
Local Abbreviation run :=
  (create_styled_excel results_df output_path baseline_label exog_label
     eemd_label w).

Hypothesis baseline_present : baseline_df <> [].

Lemma saved_metric_sheets :
  exists wb w',
    run = (Ok tt, w') /\ files w' !! output_path = Some wb /\
    forall ws, In ws wb -> In (title ws) metrics ->
      exists table,
        table_of (title ws) = Ok table /\
        metric_sheet (title ws) table = Ok ws.
Proof.
  destruct (metric_sheets results_df output_path baseline_label exog_label
              eemd_label rb rx rd w baseline_compiles exog_compiles
              eemd_compiles baseline_present) as (wb & Hrun & _ & Hsheets).
  eexists wb, _. split; [ exact Hrun | ].
  split; [ apply lookup_insert_eq | ].
  intros ws Hin Htitle.
  destruct (Hsheets ws Hin Htitle) as (table & Ht & _ & Hws).
  exists table. auto.
Qed.

Lemma summary_entry_made (metric : string) :
  exists table,
    table_of metric = Ok table /\ table <> [] /\
    summary_entry results_df baseline_label exog_label eemd_label metric
    = Ok [metric; format_f true 2 (Series_mean (map exog_imp table));
          format_f true 2 (Series_mean (map eemd_imp table))].
Proof.
  destruct (table_nonempty results_df baseline_label exog_label eemd_label
              rb rx rd baseline_compiles exog_compiles eemd_compiles metric
              baseline_present) as (table & Ht & Hn).
  exists table. split; [ exact Ht | ]. split; [ exact Hn | ].
  unfold summary_entry. rewrite Ht.
  destruct table as [|x t]; [ congruence | reflexivity ].
Qed.

Lemma saved_summary_sheet :
  exists summary_data sheets w',
    run = (Ok tt, w') /\
    files w' !! output_path = Some (summary_sheet summary_data :: sheets) /\
    Forall2 (fun metric ws => sheet_of metric = Ok ws) metrics sheets /\
    Forall2 (fun metric entry =>
               summary_entry results_df baseline_label exog_label eemd_label
                 metric = Ok entry) metrics summary_data.
Proof.
  destruct (mapM_result_ok (fun metric => sheet_of metric) metrics)
    as (sheets & Hsheets & Hall).
  { intros metric _.
    destruct (table_nonempty results_df baseline_label exog_label eemd_label
                rb rx rd baseline_compiles exog_compiles eemd_compiles metric
                baseline_present) as (table & Ht & Hn).
    destruct (metric_sheet_spec metric table Hn) as (ws & Hws & _).
    exists ws. rewrite Ht. exact Hws. }
  destruct (mapM_result_ok
              (summary_entry results_df baseline_label exog_label eemd_label)
              metrics) as (sd & Hsd & Hentries).
  { intros metric _. destruct (summary_entry_made metric) as (table & _ & _ & He).
    eexists. exact He. }
  eexists sd, sheets, _. unfold create_styled_excel, build_workbook.
  rewrite Hsheets, Hsd.
  split; [ reflexivity | ]. split; [ apply lookup_insert_eq | ]. auto.
Qed.

Lemma saved_summary_cells :
  exists summary_data sheets w',
    run = (Ok tt, w') /\
    files w' !! output_path = Some (summary_sheet summary_data :: sheets) /\
    Forall2 (fun metric ws => sheet_of metric = Ok ws) metrics sheets /\
    cells (summary_sheet summary_data) !! (1%nat, 1%nat)
      = Some {| value := "Model Performance Summary"; fill := None;
                font := Some {| color := None; bold := true;
                                size := Some 16 |};
                alignment := None; border := None |} /\
    cells (summary_sheet summary_data) !! (3%nat, 1%nat)
      = Some (summary_header_styled "Metric") /\
    cells (summary_sheet summary_data) !! (3%nat, 2%nat)
      = Some (summary_header_styled "Avg Exog Improvement (%)") /\
    cells (summary_sheet summary_data) !! (3%nat, 3%nat)
      = Some (summary_header_styled "Avg EEMD Improvement (%)") /\
    forall k metric, metrics !! k = Some metric ->
      exists table,
        table_of metric = Ok table /\ table <> [] /\
        cells (summary_sheet summary_data) !! ((4 + k)%nat, 1%nat)
          = Some (bordered_centered metric) /\
        cells (summary_sheet summary_data) !! ((4 + k)%nat, 2%nat)
          = Some (bordered_centered
                    (format_f true 2 (Series_mean (map exog_imp table)))) /\
        cells (summary_sheet summary_data) !! ((4 + k)%nat, 3%nat)
          = Some (bordered_centered
                    (format_f true 2 (Series_mean (map eemd_imp table)))).
Proof.
  destruct saved_summary_sheet
    as (sd & sheets & w' & Hrun & Hfile & Hsheets & Hsd).
  exists sd, sheets, w'.
  split; [ exact Hrun | ]. split; [ exact Hfile | ].
  split; [ exact Hsheets | ]. clear Hsheets Hfile Hrun.
  unfold metrics in Hsd.
  repeat match goal with
         | H : Forall2 _ (_ :: _) _ |- _ => inversion H; subst; clear H
         | H : Forall2 _ [] _ |- _ => inversion H; subst; clear H
         end.
  repeat match goal with
         | H : summary_entry _ _ _ _ ?m = Ok _ |- _ =>
             let table := fresh "table" in
             let Ht := fresh "Ht" in
             let Hn := fresh "Hn" in
             let He := fresh "He" in
             destruct (summary_entry_made m) as (table & Ht & Hn & He);
             rewrite He in H; clear He; apply Ok_inj in H; subst
         end.
  match goal with
  | |- context [summary_sheet [[?m1; ?a1; ?b1]; [?m2; ?a2; ?b2];
                               [?m3; ?a3; ?b3]; [?m4; ?a4; ?b4];
                               [?m5; ?a5; ?b5]; [?m6; ?a6; ?b6]]] =>
      pose proof (summary_sheet_cells m1 a1 b1 m2 a2 b2 m3 a3 b3 m4 a4 b4
                    m5 a5 b5 m6 a6 b6) as Hcells
  end.
  cbv zeta in Hcells.
  destruct (Hcells 0%nat _ _ _ eq_refl) as (H11 & H31 & H32 & H33 & _).
  split; [ exact H11 | ]. split; [ exact H31 | ]. split; [ exact H32 | ].
  split; [ exact H33 | ].
  intros k metric Hk.
  do 6 (destruct k as [|k];
        [ injection Hk as <-;
          match goal with
          | |- context [(4 + ?i)%nat] =>
              destruct (Hcells i _ _ _ eq_refl)
                as (_ & _ & _ & _ & Hm & Ha & Hb & _)
          end;
          eexists; split; [ eassumption | ]; auto | ]).
  discriminate.
Qed.


(** The summary sheet agrees with the metric sheets: the two averages on
    the row of a metric are the strings of the summary row of that metric's
    sheet, without the percent sign. *)
Theorem summary_agrees_with_sheets :
  exists summary sheets w',
    run = (Ok tt, w') /\
    files w' !! output_path = Some (summary :: sheets) /\
    forall k metric, metrics !! k = Some metric ->
      exists ws table avg_exog avg_eemd,
        sheets !! k = Some ws /\ title ws = metric /\
        table_of metric = Ok table /\
        cells summary !! ((4 + k)%nat, 2%nat)
          = Some (bordered_centered avg_exog) /\
        cells summary !! ((4 + k)%nat, 3%nat)
          = Some (bordered_centered avg_eemd) /\
        cells ws !! ((length table + 5)%nat, 3%nat)
          = Some (new_cell (avg_exog +:+ "%")) /\
        cells ws !! ((length table + 5)%nat, 4%nat)
          = Some (new_cell (avg_eemd +:+ "%")).
Proof.
  destruct saved_summary_cells
    as (sd & sheets & w' & Hrun & Hfile & Hsheets & _ & _ & _ & _ & Hrows).
  exists (summary_sheet sd), sheets, w'.
  split; [ exact Hrun | ]. split; [ exact Hfile | ].
  intros k metric Hk.
  destruct (Hrows k metric Hk) as (table & Ht & Hn & _ & Ha & Hb).
  destruct (Forall2_lookup_l _ _ _ _ _ Hsheets Hk) as (ws & Hws & Hsheet).
  rewrite Ht in Hsheet. cbn in Hsheet.
  destruct (metric_sheet_spec metric table Hn) as (ws' & Hws' & Htitle & _).
  assert (ws' = ws) as -> by congruence.
  destruct (metric_sheet_cells metric table ws Hsheet)
    as (_ & _ & _ & _ & _ & H3 & H4 & _).
  exists ws, table,
    (format_f true 2 (Series_mean (map exog_imp table))),
    (format_f true 2 (Series_mean (map eemd_imp table))).
  split; [ exact Hws | ]. split; [ exact Htitle | ]. split; [ exact Ht | ].
  split; [ exact Ha | ]. split; [ exact Hb | ]. split; [ exact H3 | exact H4 ].
Qed.

(** Each metric sheet opens with its title in A1, in bold 14-point type,
    merged over A1:E1, and carries in row 3 the four styled headers; its
    columns A to D have the widths 20, 15, 25 and 25. *)
Theorem metric_sheet_heading :
  exists wb w',
    run = (Ok tt, w') /\ files w' !! output_path = Some wb /\
    forall ws, In ws wb -> In (title ws) metrics ->
      cells ws !! (1%nat, 1%nat)
        = Some {| value := title ws
                           +:+ " Comparison: Baseline vs Exogenous vs EEMD";
                  fill := None;
                  font := Some {| color := None; bold := true;
                                  size := Some 14 |};
                  alignment := None; border := None |} /\
      (forall c h,
         ["Model"; "Baseline"; "Exogenous (Δ%)"; "EEMD (Δ%)"] !! c = Some h ->
         cells ws !! (3%nat, S c) = Some (header_styled h)) /\
      merged_cells ws = ["A1:E1"] /\
      column_width ws
        = <["D" := 25]> (<["C" := 25]> (<["B" := 15]> (<["A" := 20]> ∅))).
Proof.
  destruct saved_metric_sheets as (wb & w' & Hrun & Hfile & Hsheets).
  exists wb, w'. split; [ exact Hrun | ]. split; [ exact Hfile | ].
  intros ws Hin Htitle.
  destruct (Hsheets ws Hin Htitle) as (table & _ & Hws).
  destruct (metric_sheet_cells (title ws) table ws Hws)
    as (H1 & H3 & _ & _ & _ & _ & _ & _ & Hm & Hw).
  auto.
Qed.

(** In each metric sheet, the data row of a table row starts with the model
    name in bold and the baseline display string, centred, both with a
    border and neither with a fill. *)
Theorem data_row_leading_cells :
  exists wb w',
    run = (Ok tt, w') /\ files w' !! output_path = Some wb /\
    forall ws, In ws wb -> In (title ws) metrics ->
      exists table,
        table_of (title ws) = Ok table /\
        forall i row, table !! i = Some row ->
          cells ws !! ((4 + i)%nat, 1%nat)
            = Some (model_name_cell (row_Model row)) /\
          cells ws !! ((4 + i)%nat, 2%nat)
            = Some (bordered_centered (Baseline row)).
Proof.
  destruct saved_metric_sheets as (wb & w' & Hrun & Hfile & Hsheets).
  exists wb, w'. split; [ exact Hrun | ]. split; [ exact Hfile | ].
  intros ws Hin Htitle.
  destruct (Hsheets ws Hin Htitle) as (table & Ht & Hws).
  destruct (metric_sheet_cells (title ws) table ws Hws)
    as (_ & _ & Hdata & _).
  exists table. auto.
Qed.

(** A metric sheet with n data rows populates the title cell, and columns 1
    to 4 of the header row, of the n data rows and of the summary row, and no
    other cell: row 2 and the row before the summary row stay empty.  The
    summary row holds a bold label and three cells without any style. *)
Theorem metric_sheet_layout :
  exists wb w',
    run = (Ok tt, w') /\ files w' !! output_path = Some wb /\
    forall ws, In ws wb -> In (title ws) metrics ->
      exists table,
        table_of (title ws) = Ok table /\
        (forall r c,
           is_Some (cells ws !! (r, c)) <-> in_layout (length table) r c) /\
        cells ws !! ((length table + 5)%nat, 1%nat)
          = Some {| value := "Average Improvement:"; fill := None;
                    font := Some font_bold; alignment := None;
                    border := None |} /\
        cells ws !! ((length table + 5)%nat, 2%nat)
          = Some (new_cell "Baseline") /\
        (exists v, cells ws !! ((length table + 5)%nat, 3%nat)
                   = Some (new_cell v)) /\
        (exists v, cells ws !! ((length table + 5)%nat, 4%nat)
                   = Some (new_cell v)).
Proof.
  destruct saved_metric_sheets as (wb & w' & Hrun & Hfile & Hsheets).
  exists wb, w'. split; [ exact Hrun | ]. split; [ exact Hfile | ].
  intros ws Hin Htitle.
  destruct (Hsheets ws Hin Htitle) as (table & Ht & Hws).
  destruct (metric_sheet_cells (title ws) table ws Hws)
    as (_ & _ & _ & H1 & H2 & H3 & H4 & Hdom & _).
  exists table. eauto 10.
Qed.

End ReportLayout.


Lemma summary_agrees_with_sheets_witness :
  exists summary sheets w',
    create_styled_excel
      [rmse_record "ARIMA-Base" 10; rmse_record "ARIMA-Exog" 8]
      "out.xlsx" "Base" "Exog" "EEMD" {| files := ∅; stdout := [] |}
    = (Ok tt, w') /\
    files w' !! "out.xlsx" = Some (summary :: sheets) /\
    exists ws avg,
      sheets !! 0%nat = Some ws /\ title ws = "RMSE" /\
      cells summary !! (4%nat, 2%nat) = Some (bordered_centered avg) /\
      cells ws !! (6%nat, 3%nat) = Some (new_cell (avg +:+ "%")).
Proof.
  edestruct (summary_agrees_with_sheets
               [rmse_record "ARIMA-Base" 10; rmse_record "ARIMA-Exog" 8]
               "out.xlsx" "Base" "Exog" "EEMD")
    as (summary & sheets & w' & Hrun & Hfile & Hrows);
    [ vm_compute; reflexivity .. | vm_compute; discriminate | ].
  exists summary, sheets, w'. split; [ exact Hrun | ]. split; [ exact Hfile | ].
  destruct (Hrows 0%nat "RMSE" eq_refl)
    as (ws & table & a & b & Hws & Htitle & Ht & Ha & _ & H3 & _).
  vm_compute in Ht. injection Ht as <-.
  cbn [length Nat.add] in Ha, H3.
  exists ws, a. auto.
Defined.

Lemma metric_sheet_heading_witness :
  exists wb w',
    create_styled_excel
      [rmse_record "ARIMA-Base" 10; rmse_record "ARIMA-Exog" 8]
      "out.xlsx" "Base" "Exog" "EEMD" {| files := ∅; stdout := [] |}
    = (Ok tt, w') /\
    files w' !! "out.xlsx" = Some wb /\
    forall ws, In ws wb -> title ws = "MAE" ->
      value <$> cells ws !! (1%nat, 1%nat)
        = Some "MAE Comparison: Baseline vs Exogenous vs EEMD" /\
      cells ws !! (3%nat, 2%nat) = Some (header_styled "Baseline").
Proof.
  edestruct (metric_sheet_heading
               [rmse_record "ARIMA-Base" 10; rmse_record "ARIMA-Exog" 8]
               "out.xlsx" "Base" "Exog" "EEMD")
    as (wb & w' & Hrun & Hfile & Hsheets);
    [ vm_compute; reflexivity .. | vm_compute; discriminate | ].
  exists wb, w'. split; [ exact Hrun | ]. split; [ exact Hfile | ].
  intros ws Hin Htitle.
  destruct (Hsheets ws Hin) as (H1 & H3 & _).
  { rewrite Htitle. right. left. reflexivity. }
  rewrite H1, Htitle. split; [ reflexivity | ].
  exact (H3 1%nat "Baseline" eq_refl).
Defined.

Lemma data_row_leading_cells_witness :
  exists wb w',
    create_styled_excel
      [rmse_record "ARIMA-Base" 10; rmse_record "ARIMA-Exog" 8]
      "out.xlsx" "Base" "Exog" "EEMD" {| files := ∅; stdout := [] |}
    = (Ok tt, w') /\
    files w' !! "out.xlsx" = Some wb /\
    forall ws, In ws wb -> title ws = "RMSE" ->
      cells ws !! (4%nat, 1%nat) = Some (model_name_cell "ARIMA") /\
      cells ws !! (4%nat, 2%nat) = Some (bordered_centered "10.000").
Proof.
  edestruct (data_row_leading_cells
               [rmse_record "ARIMA-Base" 10; rmse_record "ARIMA-Exog" 8]
               "out.xlsx" "Base" "Exog" "EEMD")
    as (wb & w' & Hrun & Hfile & Hsheets);
    [ vm_compute; reflexivity .. | vm_compute; discriminate | ].
  exists wb, w'. split; [ exact Hrun | ]. split; [ exact Hfile | ].
  intros ws Hin Htitle.
  destruct (Hsheets ws Hin) as (table & Ht & Hdata).
  { rewrite Htitle. left. reflexivity. }
  rewrite Htitle in Ht. vm_compute in Ht. injection Ht as <-.
  exact (Hdata 0%nat _ eq_refl).
Defined.

Lemma metric_sheet_layout_witness :
  exists wb w',
    create_styled_excel
      [rmse_record "ARIMA-Base" 10; rmse_record "ARIMA-Exog" 8]
      "out.xlsx" "Base" "Exog" "EEMD" {| files := ∅; stdout := [] |}
    = (Ok tt, w') /\
    files w' !! "out.xlsx" = Some wb /\
    forall ws, In ws wb -> title ws = "RMSE" ->
      cells ws !! (2%nat, 1%nat) = None /\
      cells ws !! (5%nat, 1%nat) = None /\
      cells ws !! (6%nat, 2%nat) = Some (new_cell "Baseline").
Proof.
  edestruct (metric_sheet_layout
               [rmse_record "ARIMA-Base" 10; rmse_record "ARIMA-Exog" 8]
               "out.xlsx" "Base" "Exog" "EEMD")
    as (wb & w' & Hrun & Hfile & Hsheets);
    [ vm_compute; reflexivity .. | vm_compute; discriminate | ].
  exists wb, w'. split; [ exact Hrun | ]. split; [ exact Hfile | ].
  intros ws Hin Htitle.
  destruct (Hsheets ws Hin) as (table & Ht & Hdom & _ & H2 & _).
  { rewrite Htitle. left. reflexivity. }
  rewrite Htitle in Ht. vm_compute in Ht. injection Ht as <-.
  cbn [length Nat.add] in Hdom, H2.
  split; [ | split; [ | exact H2 ] ].
  - apply eq_None_not_Some. rewrite Hdom. unfold in_layout. lia.
  - apply eq_None_not_Some. rewrite Hdom. unfold in_layout. lia.
Defined.

(** ** Records outside every scenario, and infinite baselines *)

Lemma mapM_ext_result {A B : Type} (f g : A -> result B) (l : list A) :
  (forall x, f x = g x) -> mapM f l = mapM g l.
Proof.
  intros Hfg. induction l as [|x l IH]; [ reflexivity | ].
  rewrite !mapM_cons, Hfg, IH. reflexivity.
Qed.

Section UnmatchedRecord.

Context `{RegexEngine}.

Variables l1 l2 : list MetricRecord.
Variable r : MetricRecord.
Variables baseline_label exog_label eemd_label : string.
Variables rb rx rd : pattern.

Hypothesis baseline_compiles : re_compile baseline_label = Ok rb.
Hypothesis exog_compiles : re_compile exog_label = Ok rx.
Hypothesis eemd_compiles : re_compile eemd_label = Ok rd.

Lemma partition_skips (re : pattern) :
  re_search re (Model r) = false ->
  scenario_partition re
    (map (add_ModelName baseline_label exog_label eemd_label)
       (l1 ++ r :: l2))
  = scenario_partition re
      (map (add_ModelName baseline_label exog_label eemd_label) (l1 ++ l2)).
Proof.
  intros Hr. unfold scenario_partition.
  rewrite !map_app, !List.filter_app. cbn [map List.filter].
  change (Model (record (add_ModelName baseline_label exog_label eemd_label r)))
    with (Model r).
  rewrite Hr. reflexivity.
Qed.

(** A record whose [Model] none of the three labels matches has no effect:
    every table, and the whole report, are those of the input without it. *)
Theorem unmatched_record_ignored :
  re_search rb (Model r) = false ->
  re_search rx (Model r) = false ->
  re_search rd (Model r) = false ->
  (forall metric,
     create_comparison_table (l1 ++ r :: l2) metric baseline_label exog_label
       eemd_label
     = create_comparison_table (l1 ++ l2) metric baseline_label exog_label
         eemd_label) /\
  (forall output_path w,
     create_styled_excel (l1 ++ r :: l2) output_path baseline_label
       exog_label eemd_label w
     = create_styled_excel (l1 ++ l2) output_path baseline_label exog_label
         eemd_label w).
Proof.
  intros Hb Hx Hd.
  assert (Htable : forall metric,
            create_comparison_table (l1 ++ r :: l2) metric baseline_label
              exog_label eemd_label
            = create_comparison_table (l1 ++ l2) metric baseline_label
                exog_label eemd_label).
  { intros metric.
    rewrite !(create_comparison_table_unfold _ metric baseline_label
                exog_label eemd_label rb rx rd baseline_compiles
                exog_compiles eemd_compiles).
    rewrite !partition_skips by assumption. reflexivity. }
  split; [ exact Htable | ].
  intros output_path w. unfold create_styled_excel, build_workbook.
  rewrite (mapM_ext_result
             (fun metric =>
                comparison_df ← create_comparison_table (l1 ++ r :: l2) metric
                                  baseline_label exog_label eemd_label;
                metric_sheet metric comparison_df)
             (fun metric =>
                comparison_df ← create_comparison_table (l1 ++ l2) metric
                                  baseline_label exog_label eemd_label;
                metric_sheet metric comparison_df))
    by (intros metric; rewrite Htable; reflexivity).
  rewrite (mapM_ext_result
             (summary_entry (l1 ++ r :: l2) baseline_label exog_label
                eemd_label)
             (summary_entry (l1 ++ l2) baseline_label exog_label eemd_label))
    by (intros metric; unfold summary_entry; rewrite Htable; reflexivity).
  reflexivity.
Qed.

End UnmatchedRecord.

Lemma unmatched_record_ignored_witness :
  create_comparison_table
    [rmse_record "ARIMA-Base" 10; rmse_record "Naive" 3;
     rmse_record "ARIMA-Exog" 8] "RMSE" "Base" "Exog" "EEMD"
  = create_comparison_table
      [rmse_record "ARIMA-Base" 10; rmse_record "ARIMA-Exog" 8]
      "RMSE" "Base" "Exog" "EEMD".
Proof.
  eapply (unmatched_record_ignored [rmse_record "ARIMA-Base" 10]
            [rmse_record "ARIMA-Exog" 8] (rmse_record "Naive" 3)
            "Base" "Exog" "EEMD"); vm_compute; reflexivity.
Defined.

(** An infinite baseline gives an undefined improvement for every comparison
    value and metric: the guards let it through and the division of an
    infinity by an infinity is NaN. *)
Theorem infinite_baseline_undefined (s : bool) (c : float) (metric : string) :
  calculate_improvement (S754_infinity s) c metric = Ok nan.
Proof.
  destruct (pd_isna c) eqn:Hc.
  { apply calculate_improvement_nan. right. left. exact Hc. }
  rewrite calculate_improvement_defined
    by (assumption || destruct s; reflexivity).
  assert (H100 : exists m' e', of_Z 100 = S754_finite false m' e').
  { eexists _, _. vm_compute. reflexivity. }
  destruct H100 as (m' & e' & ->).
  destruct (String.eqb metric "R2"), s, c as [sc|sc| |sc mc ec];
    try discriminate; try destruct sc; reflexivity.
Qed.
